(** * CSV data cleaner: a shallow embedding of [csv_data_cleaner.py]

    The program cleans one pandas [DataFrame]: it guesses which columns hold
    dates ([detect_date_columns]), converts them ([convert_to_datetime]),
    normalises the text columns and removes empty and duplicate rows
    ([clean_dataframe]).

    Layout of this development:
    - [PyStr]: the Python string methods the program calls;
    - cells, series and frames: the part of pandas the program uses, column
      major and position based as pandas is;
    - [Section Cleaner]: the three functions of the program, over the
      behaviour of [pd.to_datetime], which is a parameter;
    - an imperative model of the same functions over a store of frames, in a
      small state monad, to speak about aliasing and in-place assignment;
    - the properties.

    Conventions.  Text is ASCII: [lower], [strip] and [isdigit] follow Python
    on the ASCII range and leave other bytes alone.  A float cell and a
    timestamp cell carry the text Python's [str] prints for them, which
    identifies the value.  Cells of different kinds are never equal: Python's
    numeric tower ([True == 1 == 1.0]) inside one object column is not
    modelled.  Column labels are strings and, where a statement needs it,
    pairwise different (as [read_csv] makes them). *)

From Stdlib Require Import String Ascii List ZArith Lia Bool PeanoNat.
From Stdlib Require Import DecimalString PrimFloat Uint63.
Import ListNotations.

Set Warnings "-inexact-float".
Local Open Scope string_scope.
Local Open Scope list_scope.
Local Open Scope nat_scope.

(* ================================================================== *)
(** * Python strings *)

Module PyStr.

Definition in_range (lo hi : nat) (c : ascii) : bool :=
  let n := nat_of_ascii c in (lo <=? n) && (n <=? hi).

(** [c.isupper()], [c.isdigit()] and [c.isspace()] on ASCII.  Python counts
    the separators FS, GS, RS, US (28..31) as white space. *)
Definition isupper (c : ascii) : bool := in_range 65 90 c.
Definition isdigit (c : ascii) : bool := in_range 48 57 c.
Definition isspace (c : ascii) : bool := in_range 9 13 c || in_range 28 32 c.

Definition char_lower (c : ascii) : ascii :=
  if isupper c then ascii_of_nat (nat_of_ascii c + 32) else c.

(** [s.lower()] *)
Fixpoint lower (s : string) : string :=
  match s with
  | EmptyString => EmptyString
  | String c s' => String (char_lower c) (lower s')
  end.

(** [s.lstrip()], [s.rstrip()], [s.strip()] *)
Fixpoint lstrip (s : string) : string :=
  match s with
  | EmptyString => EmptyString
  | String c s' => if isspace c then lstrip s' else s
  end.

Fixpoint rstrip (s : string) : string :=
  match s with
  | EmptyString => EmptyString
  | String c s' =>
      match rstrip s' with
      | EmptyString => if isspace c then EmptyString else String c EmptyString
      | r => String c r
      end
  end.

Definition strip (s : string) : string := rstrip (lstrip s).

(** [sub in s] *)
Fixpoint contains (sub s : string) : bool :=
  String.prefix sub s ||
  match s with
  | EmptyString => false
  | String _ s' => contains sub s'
  end.

(** [any(p(char) for char in s)] *)
Fixpoint any_char (p : ascii -> bool) (s : string) : bool :=
  match s with
  | EmptyString => false
  | String c s' => p c || any_char p s'
  end.

(** [str(z)] for an integer. *)
Definition str_int (z : Z) : string := NilZero.string_of_int (Z.to_int z).

End PyStr.

(** [x in xs] for a list of strings. *)
Definition in_list (x : string) (xs : list string) : bool :=
  existsb (String.eqb x) xs.

(* ================================================================== *)
(** * Cells, series and frames *)

(** A cell of a frame.  [CBool] is apart from [CInt] as in Python, where
    [bool] is a subclass of [int].  [CNaN], [CNone] and [CNaT] are the three
    values [pd.isna] accepts: the missing markers. *)
Inductive cell : Type :=
| CStr (s : string)
| CInt (z : Z)
| CFloat (repr : string)
| CBool (b : bool)
| CTime (iso : string)
| CNaN
| CNone
| CNaT.

Definition cell_eqb (a b : cell) : bool :=
  match a, b with
  | CStr x, CStr y => String.eqb x y
  | CInt x, CInt y => Z.eqb x y
  | CFloat x, CFloat y => String.eqb x y
  | CBool x, CBool y => Bool.eqb x y
  | CTime x, CTime y => String.eqb x y
  | CNaN, CNaN => true
  | CNone, CNone => true
  | CNaT, CNaT => true
  | _, _ => false
  end.

(** [pd.isna(v)] and [pd.notna(v)] *)
Definition isna (v : cell) : bool :=
  match v with
  | CNaN | CNone | CNaT => true
  | _ => false
  end.

Definition notna (v : cell) : bool := negb (isna v).

(** [isinstance(v, (str, int, float))] for a value that is not missing. *)
Definition is_str_int_float (v : cell) : bool :=
  match v with
  | CStr _ | CInt _ | CFloat _ | CBool _ => true
  | _ => false
  end.

(** [str(v)] *)
Definition py_str (v : cell) : string :=
  match v with
  | CStr s => s
  | CInt z => PyStr.str_int z
  | CFloat repr => repr
  | CBool true => "True"
  | CBool false => "False"
  | CTime iso => iso
  | CNaN => "nan"
  | CNone => "None"
  | CNaT => "NaT"
  end.

(** The dtypes the program tells apart: [select_dtypes(include='object')]
    keeps the first only. *)
Inductive dtype : Type := object | int64 | float64 | bool_ | datetime64.

Definition is_object (t : dtype) : bool :=
  match t with object => true | _ => false end.

Record Series : Type := mkSeries { s_dtype : dtype; s_values : list cell }.

(** A frame: the row labels and the named columns, in order. *)
Record DataFrame : Type :=
  mkFrame { df_index : list Z; df_columns : list (string * Series) }.

Definition empty_series : Series := mkSeries object [].
Definition empty_frame : DataFrame := mkFrame [] [].

(** [df.columns], [len(df)], [df.shape], [df.empty] *)
Definition columns (df : DataFrame) : list string := map fst (df_columns df).
Definition len (df : DataFrame) : nat := length (df_index df).
Definition shape (df : DataFrame) : nat * nat := (len df, length (df_columns df)).
Definition empty (df : DataFrame) : bool :=
  (len df =? 0) || (length (df_columns df) =? 0).

(** [df[col]]: the column with that label. *)
Fixpoint lookup_col (col : string) (cs : list (string * Series)) : Series :=
  match cs with
  | [] => empty_series
  | (name, s) :: cs' => if String.eqb col name then s else lookup_col col cs'
  end.

Definition getitem (df : DataFrame) (col : string) : Series :=
  lookup_col col (df_columns df).

(** [df[col] = s]: replaces the column in its place, or appends a new one. *)
Fixpoint assign_col (col : string) (s : Series) (cs : list (string * Series))
  : list (string * Series) :=
  match cs with
  | [] => [(col, s)]
  | (name, s0) :: cs' =>
      if String.eqb col name then (name, s) :: cs'
      else (name, s0) :: assign_col col s cs'
  end.

Definition setitem (df : DataFrame) (col : string) (s : Series) : DataFrame :=
  mkFrame (df_index df) (assign_col col s (df_columns df)).

(** [s.dropna()] and [s.head(n)] *)
Definition dropna (s : Series) : Series :=
  mkSeries (s_dtype s) (filter notna (s_values s)).

Definition head (n : nat) (s : Series) : Series :=
  mkSeries (s_dtype s) (firstn n (s_values s)).

(** [s.astype(str)]: every cell becomes its [str], missing ones included. *)
Definition astype_str (s : Series) : Series :=
  mkSeries object (map (fun v => CStr (py_str v)) (s_values s)).

(** [s.str.f()]: [f] on the strings; a cell that is no string becomes NaN. *)
Definition str_method (f : string -> string) (s : Series) : Series :=
  mkSeries object
    (map (fun v => match v with CStr x => CStr (f x) | _ => CNaN end)
       (s_values s)).

Definition str_strip : Series -> Series := str_method PyStr.strip.
Definition str_lower : Series -> Series := str_method PyStr.lower.

(** [s.replace(old, new)] *)
Definition replace (old new : cell) (s : Series) : Series :=
  mkSeries (s_dtype s)
    (map (fun v => if cell_eqb v old then new else v) (s_values s)).

(** [df.select_dtypes(include='object').columns] *)
Definition select_dtypes_object (df : DataFrame) : list string :=
  map fst (filter (fun c => is_object (s_dtype (snd c))) (df_columns df)).

(** The row at position [i], as the tuple of its cells. *)
Definition row_at (df : DataFrame) (i : nat) : list cell :=
  map (fun c => nth i (s_values (snd c)) CNaN) (df_columns df).

Definition rows (df : DataFrame) : list (list cell) :=
  map (row_at df) (seq 0 (len df)).

(** [df.take(positions)]: the rows at these positions, labels kept. *)
Definition take_series (positions : list nat) (s : Series) : Series :=
  mkSeries (s_dtype s) (map (fun i => nth i (s_values s) CNaN) positions).

Definition take (positions : list nat) (df : DataFrame) : DataFrame :=
  mkFrame (map (fun i => nth i (df_index df) 0%Z) positions)
    (map (fun c => (fst c, take_series positions (snd c))) (df_columns df)).

(** [df.dropna(how='all')]: keeps the rows with some cell that is not
    missing. *)
Definition all_missing (r : list cell) : bool := forallb isna r.

Definition dropna_all (df : DataFrame) : DataFrame :=
  take (filter (fun i => negb (all_missing (row_at df i))) (seq 0 (len df))) df.

(** Two cells are the same for [duplicated] when both are missing or they
    are equal; rows are compared cell by cell. *)
Definition same_cell (a b : cell) : bool :=
  (isna a && isna b) || cell_eqb a b.

Fixpoint same_row (r1 r2 : list cell) : bool :=
  match r1, r2 with
  | [], [] => true
  | a :: r1', b :: r2' => same_cell a b && same_row r1' r2'
  | _, _ => false
  end.

(** [df.duplicated()] at position [i] (keep='first'): some earlier row is
    the same. *)
Definition duplicated (df : DataFrame) (i : nat) : bool :=
  existsb (fun j => same_row (row_at df j) (row_at df i)) (seq 0 i).

(** [df.drop_duplicates()]; pandas returns an empty frame as it is. *)
Definition drop_duplicates (df : DataFrame) : DataFrame :=
  if empty df then df
  else take (filter (fun i => negb (duplicated df i)) (seq 0 (len df))) df.

(** [df.reset_index(drop=True)] *)
Definition reset_index (df : DataFrame) : DataFrame :=
  mkFrame (map Z.of_nat (seq 0 (len df))) (df_columns df).

(* ================================================================== *)
(** * The program *)

(** What the program prints apart from the shapes: a warning of
    [convert_to_datetime] is the column and the message of the exception. *)
Definition warning : Type := (string * string)%type.

(** The quantities [clean_dataframe] computes and prints. *)
Record metrics : Type := mkMetrics {
  initial_rows : Z;
  initial_cols : Z;
  date_columns_found : list string;
  text_columns_found : list string;
  all_nan_removed : Z;
  duplicates_removed : Z;
  final_rows : Z;
  final_cols : Z;
  total_removed : Z
}.

(** The counters of the sampling loop of [detect_date_columns], with the
    arguments of the calls of [pd.to_datetime] it makes, in order. *)
Record tally : Type := mkTally {
  date_indicators : nat;
  total_sampled : nat;
  parse_calls : list string
}.

Definition keywords : list string :=
  ["date"; "time"; "datetime"; "timestamp"; "created"; "modified"].

Definition separators : list string := ["-"; "/"; ":"; " "].

(** Line 16: [any(keyword in col_lower for keyword in [...])] *)
Definition name_is_date (col : string) : bool :=
  let col_lower := PyStr.lower col in
  existsb (fun keyword => PyStr.contains keyword col_lower) keywords.

(** Line 41: [any(sep in val_str ...) and any(char.isdigit() ...)] *)
Definition looks_like_date (val_str : string) : bool :=
  existsb (fun sep => PyStr.contains sep val_str) separators
  && PyStr.any_char PyStr.isdigit val_str.

(** Line 50: [date_indicators / total_sampled > 0.3], the true division of
    two small integers and a comparison of binary64 floats. *)
Definition float_of_nat (n : nat) : float :=
  PrimFloat.of_uint63 (Uint63.of_Z (Z.of_nat n)).

Definition ratio_exceeds (indicators total : nat) : bool :=
  PrimFloat.ltb 0.3%float (PrimFloat.div (float_of_nat indicators) (float_of_nat total)).

Definition significant (t : tally) : bool :=
  (0 <? total_sampled t) && ratio_exceeds (date_indicators t) (total_sampled t).

Section Cleaner.

(** [pd.to_datetime], from pandas.
    - [to_datetime_scalar s]: whether [pd.to_datetime(s)] returns for the
      string [s]; otherwise it raises [ValueError] or [TypeError] (the parser's
      and the bounds errors are [ValueError]s).
    - [to_datetime_error vs]: the exception [pd.to_datetime(series,
      errors='coerce', ...)] raises on the values [vs], if it raises.
    - [to_datetime_value vs v]: when it does not raise, the timestamp parsed
      from the value [v] of that series, if [v] parses ([vs] is there because
      pandas may infer one format for the whole series). *)
Variable to_datetime_scalar : string -> bool.
Variable to_datetime_error : list cell -> option string.
Variable to_datetime_value : list cell -> cell -> option string.

(** [pd.to_datetime(s, errors='coerce', infer_datetime_format=True)] *)
Definition to_datetime_coerce (s : Series) : string + Series :=
  match to_datetime_error (s_values s) with
  | Some e => inl e
  | None =>
      inr (mkSeries datetime64
             (map (fun v => match to_datetime_value (s_values s) v with
                            | Some t => CTime t
                            | None => CNaT
                            end) (s_values s)))
  end.

(** ** [detect_date_columns] *)

(** Lines 14-17: the loop over the column names. *)
Definition name_pass (df : DataFrame) : list string :=
  fold_left (fun date_columns col =>
               if name_is_date col then date_columns ++ [col] else date_columns)
    (columns df) [].

(** Lines 33-47: the body of the loop over the sampled values. *)
Definition inspect (t : tally) (val : cell) : tally :=
  if isna val || negb (is_str_int_float val) then t
  else
    let val_str := py_str val in
    let total := S (total_sampled t) in
    if looks_like_date val_str then
      mkTally
        (if to_datetime_scalar val_str then S (date_indicators t)
         else date_indicators t)
        total (parse_calls t ++ [val_str])
    else mkTally (date_indicators t) total (parse_calls t).

Definition sample_values (df : DataFrame) (col : string) : list cell :=
  s_values (head 20 (dropna (getitem df col))).

Definition inspect_column (df : DataFrame) (col : string) : tally :=
  fold_left inspect (sample_values df col) (mkTally 0 0 []).

(** Lines 20-51: the body of the loop over the columns; the state is
    [date_columns] and the calls of [pd.to_datetime] so far, each with the
    column it was made for. *)
Definition content_step (df : DataFrame)
  (st : list string * list (string * string)) (col : string)
  : list string * list (string * string) :=
  let (date_columns, calls) := st in
  if in_list col date_columns then st
  else if length (sample_values df col) =? 0 then st
  else
    let t := inspect_column df col in
    (if significant t then date_columns ++ [col] else date_columns,
     calls ++ map (pair col) (parse_calls t)).

Definition detect_date_columns_traced (df : DataFrame)
  : list string * list (string * string) :=
  fold_left (content_step df) (columns df) (name_pass df, []).

Definition detect_date_columns (df : DataFrame) : list string :=
  fst (detect_date_columns_traced df).

(** ** [convert_to_datetime] *)

(** Lines 61-70: the body of the loop, on the working copy. *)
Definition convert_step (st : DataFrame * list warning) (col : string)
  : DataFrame * list warning :=
  let (df_converted, warnings) := st in
  if negb (in_list col (columns df_converted)) then st
  else
    match to_datetime_coerce (getitem df_converted col) with
    | inr s => (setitem df_converted col s, warnings)
    | inl e => (df_converted, warnings ++ [(col, e)])
    end.

Definition convert_to_datetime (df : DataFrame) (date_columns : list string)
  : DataFrame * list warning :=
  fold_left convert_step date_columns (df, []).

(** ** [clean_dataframe] *)

(** Lines 99-112 for one column. *)
Definition clean_text (is_date : bool) (s : Series) : Series :=
  let s := astype_str s in
  let s := str_strip s in
  let s := if is_date then s else str_lower s in
  let s := replace (CStr "nan") CNaN s in
  replace (CStr "none") CNaN s.

(** Lines 96-112: the body of the loop over the text columns. *)
Definition normalize_step (date_columns exclude_columns : list string)
  (df_cleaned : DataFrame) (col : string) : DataFrame :=
  if negb (in_list col exclude_columns) then
    setitem df_cleaned col
      (clean_text (in_list col date_columns) (getitem df_cleaned col))
  else df_cleaned.

(** Lines 93-112: the text normaliser. *)
Definition normalize_text (df_cleaned : DataFrame)
  (date_columns exclude_columns : list string) : DataFrame :=
  let text_columns := select_dtypes_object df_cleaned in
  fold_left (normalize_step date_columns exclude_columns) text_columns df_cleaned.

(** Lines 114-128: the row reducer. *)
Definition reduce_rows (df_cleaned : DataFrame) : DataFrame :=
  reset_index (drop_duplicates (dropna_all df_cleaned)).

Definition clean_dataframe (df : DataFrame) (exclude_columns : list string)
  : DataFrame * metrics * list warning :=
  let df_cleaned := df in
  let '(initial_rows, initial_cols) := shape df_cleaned in
  let date_columns := detect_date_columns df_cleaned in
  let '(df_cleaned, warnings) := convert_to_datetime df_cleaned date_columns in
  let text_columns := select_dtypes_object df_cleaned in
  let df_cleaned := normalize_text df_cleaned date_columns exclude_columns in
  let df_cleaned := dropna_all df_cleaned in
  let all_nan_removed := (Z.of_nat initial_rows - Z.of_nat (len df_cleaned))%Z in
  let initial_rows_after_nan := len df_cleaned in
  let df_cleaned := drop_duplicates df_cleaned in
  let duplicates_removed :=
    (Z.of_nat initial_rows_after_nan - Z.of_nat (len df_cleaned))%Z in
  let df_cleaned := reset_index df_cleaned in
  let '(final_rows, final_cols) := shape df_cleaned in
  (df_cleaned,
   mkMetrics (Z.of_nat initial_rows) (Z.of_nat initial_cols) date_columns
     text_columns all_nan_removed duplicates_removed (Z.of_nat final_rows)
     (Z.of_nat final_cols) (Z.of_nat initial_rows - Z.of_nat final_rows)%Z,
   warnings).

(* ------------------------------------------------------------------ *)
(** ** The same functions over a store of frames

    Python names refer to objects: [df[col] = s] changes the frame a name
    refers to, whoever else holds it, and [df.copy()], [df.dropna(...)],
    [df.drop_duplicates()] and [df.reset_index(drop=True)] build a new frame.
    A reference is a position in the store; [print] adds to [stdout]. *)

Definition ref : Type := nat.

Record world : Type := mkWorld { heap : list DataFrame; stdout : list warning }.

Definition prog (A : Type) : Type := world -> A * world.

Definition ret {A : Type} (a : A) : prog A := fun w => (a, w).

Definition bind {A B : Type} (m : prog A) (k : A -> prog B) : prog B :=
  fun w => let (a, w') := m w in k a w'.

Notation "x <- m ;; k" := (bind m (fun x => k))
  (at level 61, m at next level, right associativity).
Notation "m ;;; k" := (bind m (fun _ => k))
  (at level 61, right associativity).

Fixpoint update (r : ref) (d : DataFrame) (h : list DataFrame) : list DataFrame :=
  match h, r with
  | [], _ => []
  | _ :: h', 0 => d :: h'
  | d0 :: h', S r' => d0 :: update r' d h'
  end.

(** Reading the frame behind a reference; a new frame; [df[col] = s] on the
    frame behind [r]; [print] of a warning. *)
Definition deref (r : ref) : prog DataFrame :=
  fun w => (nth r (heap w) empty_frame, w).

Definition alloc (d : DataFrame) : prog ref :=
  fun w => (length (heap w), mkWorld (heap w ++ [d]) (stdout w)).

Definition assign (r : ref) (col : string) (s : Series) : prog unit :=
  fun w =>
    (tt, mkWorld (update r (setitem (nth r (heap w) empty_frame) col s) (heap w))
           (stdout w)).

Definition print_warning (x : warning) : prog unit :=
  fun w => (tt, mkWorld (heap w) (stdout w ++ [x])).

Fixpoint for_each {A : Type} (xs : list A) (body : A -> prog unit) : prog unit :=
  match xs with
  | [] => ret tt
  | x :: xs' => body x ;;; for_each xs' body
  end.

(** [df.copy()] and [df[col]] through a reference. *)
Definition copy (df : ref) : prog ref := d <- deref df ;; alloc d.

Definition column_of (df : ref) (col : string) : prog Series :=
  d <- deref df ;; ret (getitem d col).

(** Lines 55-72. *)
Definition convert_to_datetime_imp (df : ref) (date_columns : list string)
  : prog ref :=
  df_converted <- copy df ;;
  for_each date_columns (fun col =>
    d <- deref df_converted ;;
    if negb (in_list col (columns d)) then ret tt
    else
      s <- column_of df_converted col ;;
      match to_datetime_coerce s with
      | inr s' => assign df_converted col s'
      | inl e => print_warning (col, e)
      end) ;;;
  ret df_converted.

(** Lines 74-135. *)
Definition clean_dataframe_imp (df : ref) (exclude_columns : list string)
  : prog (ref * metrics) :=
  df_cleaned <- copy df ;;
  d <- deref df_cleaned ;;
  let '(initial_rows, initial_cols) := shape d in
  let date_columns := detect_date_columns d in
  df_cleaned <- convert_to_datetime_imp df_cleaned date_columns ;;
  d <- deref df_cleaned ;;
  let text_columns := select_dtypes_object d in
  for_each text_columns (fun col =>
    if negb (in_list col exclude_columns) then
      s <- column_of df_cleaned col ;;
      assign df_cleaned col (astype_str s) ;;;
      s <- column_of df_cleaned col ;;
      assign df_cleaned col (str_strip s) ;;;
      (if negb (in_list col date_columns) then
         s <- column_of df_cleaned col ;;
         assign df_cleaned col (str_lower s)
       else ret tt) ;;;
      s <- column_of df_cleaned col ;;
      assign df_cleaned col (replace (CStr "nan") CNaN s) ;;;
      s <- column_of df_cleaned col ;;
      assign df_cleaned col (replace (CStr "none") CNaN s)
    else ret tt) ;;;
  d <- deref df_cleaned ;;
  df_cleaned <- alloc (dropna_all d) ;;
  d <- deref df_cleaned ;;
  let all_nan_removed := (Z.of_nat initial_rows - Z.of_nat (len d))%Z in
  let initial_rows_after_nan := len d in
  df_cleaned <- alloc (drop_duplicates d) ;;
  d <- deref df_cleaned ;;
  let duplicates_removed := (Z.of_nat initial_rows_after_nan - Z.of_nat (len d))%Z in
  df_cleaned <- alloc (reset_index d) ;;
  d <- deref df_cleaned ;;
  let '(final_rows, final_cols) := shape d in
  ret (df_cleaned,
       mkMetrics (Z.of_nat initial_rows) (Z.of_nat initial_cols) date_columns
         text_columns all_nan_removed duplicates_removed (Z.of_nat final_rows)
         (Z.of_nat final_cols) (Z.of_nat initial_rows - Z.of_nat final_rows)%Z).

End Cleaner.

(* ------------------------------------------------------------------ *)
(** ** A small [pd.to_datetime] to run the program on

    It accepts the texts of the form [YYYY-MM-DD] (ten characters, digits
    around two hyphens), which pandas accepts too, and nothing else; a series
    conversion fails, as pandas does on mixed time zones, when the series
    holds texts with different UTC offsets (the text after a [+]). *)

Definition iso_shape (s : string) : bool :=
  match list_ascii_of_string s with
  | [y1; y2; y3; y4; h1; m1; m2; h2; d1; d2] =>
      forallb PyStr.isdigit [y1; y2; y3; y4; m1; m2; d1; d2]
      && Ascii.eqb h1 "-"%char && Ascii.eqb h2 "-"%char
  | _ => false
  end.

Fixpoint utc_offset (s : string) : option string :=
  match s with
  | EmptyString => None
  | String c s' => if Ascii.eqb c "+"%char then Some s' else utc_offset s'
  end.

Definition offsets_of (vs : list cell) : list string :=
  flat_map (fun v => match v with
                     | CStr s => match utc_offset s with Some o => [o] | None => [] end
                     | _ => []
                     end) vs.

Definition toy_scalar (s : string) : bool := iso_shape s.

Definition toy_error (vs : list cell) : option string :=
  match offsets_of vs with
  | o :: os => if forallb (String.eqb o) os then None
               else Some "Mixed timezones detected"
  | [] => None
  end.

Definition toy_value (vs : list cell) (v : cell) : option string :=
  match v with
  | CStr s => if iso_shape s then Some (s ++ " 00:00:00")%string else None
  | CTime t => Some t
  | _ => None
  end.

(* ================================================================== *)
(** * Properties of the string methods *)

Module PyStrFacts.
Import PyStr.

Ltac by_cases_on_char c :=
  destruct c as [[] [] [] [] [] [] [] []]; vm_compute; reflexivity.

Lemma char_lower_idem (c : ascii) : char_lower (char_lower c) = char_lower c.
Proof. by_cases_on_char c. Qed.

Lemma isspace_char_lower (c : ascii) : isspace (char_lower c) = isspace c.
Proof. by_cases_on_char c. Qed.

Lemma lower_idem (s : string) : lower (lower s) = lower s.
Proof.
  induction s as [|c s IH]; simpl; [reflexivity|].
  now rewrite char_lower_idem, IH.
Qed.

Lemma lstrip_lower (s : string) : lstrip (lower s) = lower (lstrip s).
Proof.
  induction s as [|c s IH]; simpl; [reflexivity|].
  rewrite isspace_char_lower. destruct (isspace c); [exact IH | reflexivity].
Qed.

Lemma rstrip_lower (s : string) : rstrip (lower s) = lower (rstrip s).
Proof.
  induction s as [|c s IH]; simpl; [reflexivity|].
  rewrite IH, isspace_char_lower.
  destruct (rstrip s); simpl; [destruct (isspace c)|]; reflexivity.
Qed.

Lemma strip_lower (s : string) : strip (lower s) = lower (strip s).
Proof. unfold strip. now rewrite lstrip_lower, rstrip_lower. Qed.

(** A string starts clean when it is empty or its first character is no
    white space; it ends clean when [rstrip] leaves it alone. *)
Definition starts_clean (s : string) : bool :=
  match s with
  | EmptyString => true
  | String c _ => negb (isspace c)
  end.

Lemma lstrip_starts_clean (s : string) : starts_clean (lstrip s) = true.
Proof.
  induction s as [|c s IH]; simpl; [reflexivity|].
  destruct (isspace c) eqn:E; [exact IH | simpl; now rewrite E].
Qed.

Lemma lstrip_clean (s : string) : starts_clean s = true -> lstrip s = s.
Proof.
  destruct s as [|c s]; simpl; [reflexivity|].
  now destruct (isspace c).
Qed.

Lemma rstrip_starts_clean (s : string) :
  starts_clean s = true -> starts_clean (rstrip s) = true.
Proof.
  destruct s as [|c s]; simpl; [reflexivity|]. intros E.
  destruct (rstrip s); simpl; [|exact E].
  destruct (isspace c) eqn:Ec; [discriminate | simpl; now rewrite Ec].
Qed.

Lemma rstrip_idem (s : string) : rstrip (rstrip s) = rstrip s.
Proof.
  induction s as [|c s IH]; simpl; [reflexivity|].
  destruct (rstrip s) as [|c' r] eqn:E.
  - destruct (isspace c) eqn:Ec; simpl; [reflexivity | now rewrite Ec].
  - simpl in *. now rewrite IH.
Qed.

Lemma strip_idem (s : string) : strip (strip s) = strip s.
Proof.
  unfold strip.
  rewrite (lstrip_clean (rstrip (lstrip s))).
  - apply rstrip_idem.
  - apply rstrip_starts_clean, lstrip_starts_clean.
Qed.

Lemma strip_lower_strip (s : string) : strip (lower (strip s)) = lower (strip s).
Proof. now rewrite strip_lower, strip_idem. Qed.

(** [contains] is Python's [in]: [sub] stands somewhere in [s]. *)
Lemma prefix_split (sub s : string) :
  String.prefix sub s = true <-> exists post, s = (sub ++ post)%string.
Proof.
  revert s. induction sub as [|c sub IH]; intros s.
  - split; [intros _; now exists s | intros _; now destruct s].
  - destruct s as [|c' s]; simpl;
      [split; [discriminate | intros [post E]; discriminate]|].
    destruct (ascii_dec c c') as [->|Hne].
    + rewrite IH. split; intros [post E]; exists post; [now rewrite E|].
      now inversion E.
    + split; [discriminate|]. intros [post E]. inversion E. congruence.
Qed.

Lemma contains_split (sub s : string) :
  contains sub s = true <-> exists pre post, s = (pre ++ sub ++ post)%string.
Proof.
  induction s as [|c s IH]; cbn [contains].
  - rewrite orb_false_r, prefix_split. split.
    + intros [post E]. now exists EmptyString, post.
    + intros [[|c pre] [post E]]; [now exists post | discriminate].
  - rewrite orb_true_iff, prefix_split, IH. split.
    + intros [[post E]|[pre [post E]]].
      * now exists EmptyString, post.
      * exists (String c pre), post. simpl. now rewrite E.
    + intros [[|c' pre] [post E]].
      * left. now exists post.
      * right. exists pre, post. simpl in E. now inversion E.
Qed.

End PyStrFacts.

(* ================================================================== *)
(** * Properties of cells, series and frames *)

Lemma in_list_In (x : string) (xs : list string) : in_list x xs = true <-> In x xs.
Proof.
  unfold in_list. rewrite existsb_exists. split.
  - intros [y [Hy E]]. apply String.eqb_eq in E. now subst.
  - intros H. exists x. split; [exact H | apply String.eqb_refl].
Qed.

Lemma in_list_not_In (x : string) (xs : list string) :
  in_list x xs = false <-> ~ In x xs.
Proof.
  rewrite <- in_list_In. destruct (in_list x xs); split; congruence.
Qed.

Lemma cell_eqb_eq (a b : cell) : cell_eqb a b = true <-> a = b.
Proof.
  destruct a, b; simpl; split; intros H; try discriminate; try reflexivity;
    try (apply String.eqb_eq in H; now subst);
    try (apply Z.eqb_eq in H; now subst);
    try (apply Bool.eqb_prop in H; now subst);
    inversion H; subst;
    first [apply String.eqb_refl | apply Z.eqb_refl | apply Bool.eqb_reflx].
Qed.

Lemma cell_eqb_refl (a : cell) : cell_eqb a a = true.
Proof. now apply cell_eqb_eq. Qed.

(** ** [duplicated] compares rows by an equivalence *)

Lemma same_cell_refl (a : cell) : same_cell a a = true.
Proof. unfold same_cell. rewrite cell_eqb_refl. apply orb_true_r. Qed.

Lemma same_cell_sym (a b : cell) : same_cell a b = same_cell b a.
Proof.
  unfold same_cell. rewrite (andb_comm (isna a)). f_equal.
  destruct (cell_eqb a b) eqn:E.
  - apply cell_eqb_eq in E. subst. symmetry. apply cell_eqb_refl.
  - destruct (cell_eqb b a) eqn:E'; [|reflexivity].
    apply cell_eqb_eq in E'. subst. now rewrite cell_eqb_refl in E.
Qed.

Lemma same_cell_trans (a b c : cell) :
  same_cell a b = true -> same_cell b c = true -> same_cell a c = true.
Proof.
  unfold same_cell. intros H1 H2.
  apply orb_true_iff in H1. apply orb_true_iff in H2. apply orb_true_iff.
  destruct H1 as [H1|H1], H2 as [H2|H2].
  - apply andb_true_iff in H1, H2. left. apply andb_true_iff. tauto.
  - apply cell_eqb_eq in H2. subst. now left.
  - apply cell_eqb_eq in H1. subst. now left.
  - apply cell_eqb_eq in H1. subst. now right.
Qed.

Lemma same_row_refl (r : list cell) : same_row r r = true.
Proof. induction r; simpl; [reflexivity|]. now rewrite same_cell_refl. Qed.

Lemma same_row_sym (r1 r2 : list cell) : same_row r1 r2 = same_row r2 r1.
Proof.
  revert r2. induction r1 as [|a r1 IH]; intros [|b r2]; simpl; try reflexivity.
  now rewrite same_cell_sym, IH.
Qed.

Lemma same_row_trans (r1 r2 r3 : list cell) :
  same_row r1 r2 = true -> same_row r2 r3 = true -> same_row r1 r3 = true.
Proof.
  revert r2 r3. induction r1 as [|a r1 IH]; intros [|b r2] [|c r3]; simpl;
    try discriminate; try reflexivity.
  intros H1 H2. apply andb_true_iff in H1, H2. apply andb_true_iff.
  destruct H1, H2. split; [eapply same_cell_trans | eapply IH]; eassumption.
Qed.

(** ** Columns by label *)

Lemma lookup_assign_same (col : string) (s : Series) (cs : list (string * Series)) :
  lookup_col col (assign_col col s cs) = s.
Proof.
  induction cs as [|[name s0] cs IH]; simpl.
  - now rewrite String.eqb_refl.
  - destruct (String.eqb col name) eqn:E; simpl; now rewrite E.
Qed.


Lemma names_assign (col : string) (s : Series) (cs : list (string * Series)) :
  In col (map fst cs) -> map fst (assign_col col s cs) = map fst cs.
Proof.
  induction cs as [|[name s0] cs IH]; simpl; [tauto|].
  intros H. destruct (String.eqb col name) eqn:E; simpl; [reflexivity|].
  f_equal. apply IH. destruct H as [H|H]; [|exact H].
  subst. now rewrite String.eqb_refl in E.
Qed.

(** With labels that differ, an assignment rewrites the one column of that
    label and nothing else. *)
Definition on_label (col : string) (f : Series -> Series) (c : string * Series)
  : string * Series :=
  (fst c, if String.eqb col (fst c) then f (snd c) else snd c).

Lemma assign_as_map (col : string) (f : Series -> Series) (cs : list (string * Series)) :
  NoDup (map fst cs) -> In col (map fst cs) ->
  assign_col col (f (lookup_col col cs)) cs = map (on_label col f) cs.
Proof.
  induction cs as [|[name s0] cs IH]; simpl; [tauto|].
  intros Hnd Hin. inversion Hnd as [|? ? Hnot Hnd']; subst.
  unfold on_label at 1. simpl. destruct (String.eqb col name) eqn:E.
  - apply String.eqb_eq in E. subst name. f_equal.
    clear IH Hin Hnd. induction cs as [|[n1 s1] cs IH]; simpl; [reflexivity|].
    simpl in Hnot. unfold on_label at 1. simpl.
    destruct (String.eqb col n1) eqn:E1.
    + apply String.eqb_eq in E1. subst. tauto.
    + f_equal. apply IH; [tauto|]. now inversion Hnd'.
  - f_equal. apply IH; [exact Hnd'|].
    destruct Hin as [H|H]; [|exact H]. subst. now rewrite String.eqb_refl in E.
Qed.

(** [map_columns g df]: every column rewritten by [g], which sees the label. *)
Definition map_columns (g : string -> Series -> Series) (df : DataFrame) : DataFrame :=
  mkFrame (df_index df) (map (fun c => (fst c, g (fst c) (snd c))) (df_columns df)).

Lemma columns_map_columns (g : string -> Series -> Series) (df : DataFrame) :
  columns (map_columns g df) = columns df.
Proof. unfold columns, map_columns. simpl. rewrite map_map. reflexivity. Qed.

(** The step of both loops of the program that rewrite columns: the column
    of label [col], when there is one, becomes [f] of itself. *)
Definition update_col (col : string) (f : Series -> Series) (df : DataFrame) : DataFrame :=
  if in_list col (columns df) then setitem df col (f (getitem df col)) else df.

Lemma update_col_as_map (col : string) (f : Series -> Series) (df : DataFrame) :
  NoDup (columns df) ->
  update_col col f df =
  map_columns (fun name s => if String.eqb col name then f s else s) df.
Proof.
  intros Hnd. unfold update_col, map_columns, setitem, getitem.
  destruct (in_list col (columns df)) eqn:E.
  - apply in_list_In in E. f_equal. now apply assign_as_map.
  - apply in_list_not_In in E. destruct df as [idx cs]. simpl in *. f_equal.
    unfold columns in E. simpl in E. clear Hnd.
    induction cs as [|[name s] cs IH]; simpl in *; [reflexivity|].
    destruct (String.eqb col name) eqn:E1.
    + apply String.eqb_eq in E1. subst. tauto.
    + f_equal. apply IH. tauto.
Qed.

Lemma fold_update_col_as_map (F : string -> Series -> Series) (ns : list string) :
  forall df, NoDup (columns df) -> NoDup ns ->
  fold_left (fun d a => update_col a (F a) d) ns df =
  map_columns (fun name s => if in_list name ns then F name s else s) df.
Proof.
  induction ns as [|a ns IH]; intros df Hnd Hns; simpl.
  - unfold map_columns. destruct df as [idx cs]. simpl. f_equal. clear Hnd.
    induction cs as [|[n s] cs IHcs]; simpl; [reflexivity | now f_equal].
  - inversion Hns as [|? ? Hnot Hns']; subst.
    rewrite update_col_as_map by exact Hnd.
    rewrite IH; [|now rewrite columns_map_columns | exact Hns'].
    unfold map_columns. simpl. f_equal. rewrite map_map. simpl.
    apply map_ext. intros [n s]. simpl. f_equal.
    rewrite (String.eqb_sym n a).
    destruct (String.eqb a n) eqn:E; simpl; [|reflexivity].
    apply String.eqb_eq in E. subst n.
    apply in_list_not_In in Hnot. now rewrite Hnot.
Qed.

(** ** Rows of a frame *)

Lemma map_nth_positions {A : Type} (l : list A) (d : A) :
  map (fun k => nth k l d) (seq 0 (length l)) = l.
Proof.
  induction l as [|x l IH]; simpl; [reflexivity|].
  f_equal. rewrite <- seq_shift, map_map. exact IH.
Qed.

Lemma map_filter_comm {A B : Type} (f : A -> B) (p : B -> bool) (l : list A) :
  map f (filter (fun i => p (f i)) l) = filter p (map f l).
Proof.
  induction l as [|x l IH]; simpl; [reflexivity|].
  destruct (p (f x)); simpl; now rewrite IH.
Qed.

Lemma existsb_map_comp {A B : Type} (f : A -> B) (p : B -> bool) (l : list A) :
  existsb p (map f l) = existsb (fun x => p (f x)) l.
Proof. induction l as [|x l IH]; simpl; [reflexivity | now rewrite IH]. Qed.

Lemma len_take (positions : list nat) (df : DataFrame) :
  len (take positions df) = length positions.
Proof. unfold len, take. simpl. apply length_map. Qed.

Lemma columns_take (positions : list nat) (df : DataFrame) :
  columns (take positions df) = columns df.
Proof. unfold columns, take. simpl. rewrite map_map. reflexivity. Qed.

Lemma row_at_take (positions : list nat) (df : DataFrame) (k : nat) :
  k < length positions ->
  row_at (take positions df) k = row_at df (nth k positions 0).
Proof.
  intros Hk. unfold row_at, take. simpl. rewrite map_map. apply map_ext.
  intros [name s]. simpl.
  rewrite (nth_indep _ CNaN (nth 0 (s_values s) CNaN))
    by (now rewrite length_map).
  now rewrite (map_nth (fun i => nth i (s_values s) CNaN)).
Qed.

Lemma rows_take (positions : list nat) (df : DataFrame) :
  rows (take positions df) = map (row_at df) positions.
Proof.
  unfold rows. rewrite len_take.
  transitivity
    (map (row_at df) (map (fun k => nth k positions 0) (seq 0 (length positions))));
    [|now rewrite map_nth_positions].
  rewrite map_map. apply map_ext_in. intros k Hk. apply in_seq in Hk.
  apply row_at_take. lia.
Qed.

Lemma rows_dropna_all (df : DataFrame) :
  rows (dropna_all df) = filter (fun r => negb (all_missing r)) (rows df).
Proof.
  unfold dropna_all. rewrite rows_take. unfold rows.
  apply (map_filter_comm (row_at df) (fun r => negb (all_missing r))).
Qed.

Lemma rows_reset_index (df : DataFrame) : rows (reset_index df) = rows df.
Proof.
  unfold rows, reset_index, len, row_at. simpl.
  now rewrite length_map, length_seq.
Qed.

Lemma len_reset_index (df : DataFrame) : len (reset_index df) = len df.
Proof. unfold reset_index, len. simpl. now rewrite length_map, length_seq. Qed.

Lemma length_rows (df : DataFrame) : length (rows df) = len df.
Proof. unfold rows. now rewrite length_map, length_seq. Qed.

(** A frame without columns has no row left after [dropna(how='all')], so
    the early return of [drop_duplicates] on an empty frame is met with no
    row at all. *)
Lemma empty_dropna_all (df : DataFrame) :
  empty (dropna_all df) = true -> rows (dropna_all df) = [].
Proof.
  intros He. apply length_zero_iff_nil. rewrite length_rows.
  unfold empty in He. apply orb_true_iff in He.
  destruct He as [He|He]; apply Nat.eqb_eq in He; [exact He|].
  unfold dropna_all in *. rewrite len_take. unfold take in He. simpl in He.
  rewrite length_map in He. apply length_zero_iff_nil in He.
  unfold row_at. rewrite He. simpl.
  induction (seq 0 (len df)); simpl; auto.
Qed.

(** ** The row reducer in the words of the specification

    On the list of rows: drop the rows whose cells are all missing, then
    walk the rest and drop a row that is the same as a row kept so far. *)
Fixpoint keep_first_from (kept rs : list (list cell)) : list (list cell) :=
  match rs with
  | [] => []
  | r :: rs' =>
      if existsb (fun k => same_row k r) kept then keep_first_from kept rs'
      else r :: keep_first_from (kept ++ [r]) rs'
  end.

Definition keep_first (rs : list (list cell)) : list (list cell) :=
  keep_first_from [] rs.

Definition spec_reduce_rows (rs : list (list cell)) : list (list cell) :=
  keep_first (filter (fun r => negb (all_missing r)) rs).

(** [duplicated] on a list of rows: a row is dropped when any earlier row,
    kept or not, is the same. *)
Fixpoint drop_seen (seen rs : list (list cell)) : list (list cell) :=
  match rs with
  | [] => []
  | r :: rs' =>
      if existsb (fun k => same_row k r) seen then drop_seen (seen ++ [r]) rs'
      else r :: drop_seen (seen ++ [r]) rs'
  end.

Lemma positions_drop_seen (f : nat -> list cell) (m : nat) :
  forall a,
  map f (filter (fun i => negb (existsb (fun j => same_row (f j) (f i)) (seq 0 i)))
           (seq a m))
  = drop_seen (map f (seq 0 a)) (map f (seq a m)).
Proof.
  induction m as [|m IH]; intros a; simpl; [reflexivity|].
  rewrite existsb_map_comp.
  assert (E : map f (seq 0 a) ++ [f a] = map f (seq 0 (S a)))
    by (rewrite seq_S, map_app; reflexivity).
  rewrite E.
  destruct (existsb (fun j => same_row (f j) (f a)) (seq 0 a)); simpl;
    now rewrite IH.
Qed.

Lemma drop_seen_keep_first (rs : list (list cell)) :
  forall seen kept,
  (forall r, existsb (fun k => same_row k r) seen
             = existsb (fun k => same_row k r) kept) ->
  drop_seen seen rs = keep_first_from kept rs.
Proof.
  induction rs as [|r rs IH]; intros seen kept Hinv; simpl; [reflexivity|].
  rewrite (Hinv r).
  destruct (existsb (fun k => same_row k r) kept) eqn:E.
  - apply IH. intros r'. rewrite existsb_app. simpl. rewrite orb_false_r.
    rewrite Hinv.
    destruct (same_row r r') eqn:Er; [|apply orb_false_r].
    rewrite orb_true_r. symmetry. apply existsb_exists.
    apply existsb_exists in E. destruct E as [k [Hk Hkr]].
    exists k. split; [exact Hk|]. eapply same_row_trans; eassumption.
  - f_equal. apply IH. intros r'. rewrite !existsb_app. now rewrite Hinv.
Qed.

Lemma rows_drop_duplicates (df : DataFrame) :
  empty df = false -> rows (drop_duplicates df) = keep_first (rows df).
Proof.
  intros He. unfold drop_duplicates. rewrite He, rows_take.
  unfold duplicated. rewrite (positions_drop_seen (row_at df) (len df) 0).
  simpl. unfold rows, keep_first. now apply drop_seen_keep_first.
Qed.

Lemma rows_reduce_rows (df : DataFrame) :
  rows (reduce_rows df) = spec_reduce_rows (rows df).
Proof.
  unfold reduce_rows, spec_reduce_rows.
  rewrite rows_reset_index, <- rows_dropna_all.
  destruct (empty (dropna_all df)) eqn:He.
  - unfold drop_duplicates. rewrite He.
    now rewrite (empty_dropna_all df He).
  - now apply rows_drop_duplicates.
Qed.

(** ** What [keep_first] keeps *)

(** [subseq l1 l2]: [l1] is [l2] with some elements left out, order kept. *)
Inductive subseq {A : Type} : list A -> list A -> Prop :=
| subseq_nil : subseq [] []
| subseq_skip : forall x l1 l2, subseq l1 l2 -> subseq l1 (x :: l2)
| subseq_keep : forall x l1 l2, subseq l1 l2 -> subseq (x :: l1) (x :: l2).

Lemma subseq_refl {A : Type} (l : list A) : subseq l l.
Proof. induction l; constructor; assumption. Qed.

Lemma subseq_trans {A : Type} (l1 l2 l3 : list A) :
  subseq l1 l2 -> subseq l2 l3 -> subseq l1 l3.
Proof.
  intros H12 H23. revert l1 H12.
  induction H23 as [|x l2 l3 H23 IH|x l2 l3 H23 IH]; intros l1 H12.
  - exact H12.
  - constructor. now apply IH.
  - inversion H12; subst.
    + constructor. now apply IH.
    + apply subseq_keep. now apply IH.
Qed.

Lemma subseq_filter {A : Type} (p : A -> bool) (l : list A) : subseq (filter p l) l.
Proof.
  induction l as [|x l IH]; simpl; [constructor|].
  destruct (p x); constructor; exact IH.
Qed.

Lemma subseq_keep_first_from (rs : list (list cell)) :
  forall kept, subseq (keep_first_from kept rs) rs.
Proof.
  induction rs as [|r rs IH]; intros kept; simpl; [constructor|].
  destruct (existsb (fun k => same_row k r) kept); constructor; apply IH.
Qed.

Lemma subseq_map {A B : Type} (f : A -> B) (l1 l2 : list A) :
  subseq l1 l2 -> subseq (map f l1) (map f l2).
Proof. induction 1; simpl; constructor; assumption. Qed.

Lemma subseq_In {A : Type} (l1 l2 : list A) (x : A) :
  subseq l1 l2 -> In x l1 -> In x l2.
Proof.
  induction 1 as [|y l1 l2 H IH|y l1 l2 H IH]; simpl; [tauto|tauto|].
  intros [E|Hin]; [now left | right; now apply IH].
Qed.

Lemma subseq_length {A : Type} (l1 l2 : list A) :
  subseq l1 l2 -> length l1 <= length l2.
Proof. induction 1; simpl; lia. Qed.

Lemma keep_first_from_fresh (rs : list (list cell)) :
  forall kept x, In x (keep_first_from kept rs) ->
  existsb (fun k => same_row k x) kept = false.
Proof.
  induction rs as [|r rs IH]; intros kept x Hx; simpl in Hx; [tauto|].
  destruct (existsb (fun k => same_row k r) kept) eqn:E.
  - now apply IH.
  - destruct Hx as [Hx|Hx]; [now subst|].
    apply IH in Hx. rewrite existsb_app in Hx.
    now apply orb_false_iff in Hx.
Qed.

(** No two rows that are kept are the same. *)
Lemma keep_first_from_distinct (rs : list (list cell)) :
  forall kept,
  ForallOrdPairs (fun a b => same_row a b = false) (keep_first_from kept rs).
Proof.
  induction rs as [|r rs IH]; intros kept; simpl; [constructor|].
  destruct (existsb (fun k => same_row k r) kept) eqn:E; [apply IH|].
  constructor; [|apply IH].
  apply Forall_forall. intros x Hx.
  apply keep_first_from_fresh in Hx. rewrite existsb_app in Hx.
  apply orb_false_iff in Hx. destruct Hx as [_ Hx]. simpl in Hx.
  now rewrite orb_false_r in Hx.
Qed.

(** Every row is the same as a row of [kept] or as a row that is kept. *)
Lemma keep_first_from_covers (rs : list (list cell)) :
  forall kept r, In r rs ->
  existsb (fun k => same_row k r) (kept ++ keep_first_from kept rs) = true.
Proof.
  induction rs as [|r0 rs IH]; intros kept r Hr; simpl in *; [tauto|].
  destruct (existsb (fun k => same_row k r0) kept) eqn:E.
  - destruct Hr as [Hr|Hr]; [|now apply IH].
    subst. rewrite existsb_app, E. reflexivity.
  - replace (kept ++ r0 :: keep_first_from (kept ++ [r0]) rs)
      with ((kept ++ [r0]) ++ keep_first_from (kept ++ [r0]) rs)
      by (now rewrite <- app_assoc).
    destruct Hr as [Hr|Hr]; [|now apply IH].
    subst. rewrite !existsb_app. simpl. rewrite same_row_refl.
    now rewrite orb_true_r.
Qed.

(* ================================================================== *)
(** * Properties of the program *)

(** ** The threshold of the content pass

    On the counts the sampling loop can reach (at most 20 values), the
    comparison of floats [indicators / total > 0.3] decides
    [3 * total < 10 * indicators]: checked on every pair. *)
Lemma ratio_exceeds_table :
  forallb (fun total =>
             forallb (fun indicators =>
                        Bool.eqb (ratio_exceeds indicators total)
                          (3 * total <? 10 * indicators))
               (seq 0 (S total)))
    (seq 0 21) = true.
Proof. vm_compute. reflexivity. Qed.

Lemma ratio_exceeds_exact (indicators total : nat) :
  indicators <= total -> total <= 20 ->
  ratio_exceeds indicators total = (3 * total <? 10 * indicators).
Proof.
  intros Hi Ht. pose proof ratio_exceeds_table as T.
  rewrite forallb_forall in T.
  assert (Hin : In total (seq 0 21)) by (apply in_seq; lia).
  specialize (T total Hin). rewrite forallb_forall in T.
  assert (Hin' : In indicators (seq 0 (S total))) by (apply in_seq; lia).
  specialize (T indicators Hin'). now apply Bool.eqb_prop in T.
Qed.

Lemma looks_like_date_spec (s : string) :
  looks_like_date s = true <->
  (exists sep, In sep separators /\ PyStr.contains sep s = true)
  /\ PyStr.any_char PyStr.isdigit s = true.
Proof.
  unfold looks_like_date. rewrite andb_true_iff, existsb_exists. reflexivity.
Qed.

Lemma name_is_date_spec (col : string) :
  name_is_date col = true <->
  exists keyword pre post,
    In keyword keywords
    /\ PyStr.lower col = (pre ++ keyword ++ post)%string.
Proof.
  unfold name_is_date. rewrite existsb_exists. split.
  - intros [keyword [Hin Hc]]. apply PyStrFacts.contains_split in Hc.
    destruct Hc as [pre [post E]]. now exists keyword, pre, post.
  - intros [keyword [pre [post [Hin E]]]]. exists keyword. split; [exact Hin|].
    apply PyStrFacts.contains_split. now exists pre, post.
Qed.

Lemma fold_append_filter {A : Type} (p : A -> bool) (l : list A) :
  forall acc,
  fold_left (fun acc x => if p x then acc ++ [x] else acc) l acc
  = acc ++ filter p l.
Proof.
  induction l as [|x l IH]; intros acc; simpl; [now rewrite app_nil_r|].
  rewrite IH. destruct (p x); [|reflexivity].
  now rewrite <- app_assoc.
Qed.

Lemma name_pass_filter (df : DataFrame) :
  name_pass df = filter name_is_date (columns df).
Proof. unfold name_pass. now rewrite fold_append_filter. Qed.

Lemma filter_length_le' {A : Type} (p : A -> bool) (l : list A) :
  length (filter p l) <= length l.
Proof. apply subseq_length, subseq_filter. Qed.

(** ** Loops that rewrite columns *)

Lemma columns_setitem (df : DataFrame) (col : string) (s : Series) :
  In col (columns df) -> columns (setitem df col s) = columns df.
Proof. intros H. unfold columns, setitem. simpl. now apply names_assign. Qed.

Lemma columns_update_col (col : string) (f : Series -> Series) (df : DataFrame) :
  columns (update_col col f df) = columns df.
Proof.
  unfold update_col. destruct (in_list col (columns df)) eqn:E; [|reflexivity].
  apply columns_setitem. now apply in_list_In.
Qed.

Lemma index_update_col (col : string) (f : Series -> Series) (df : DataFrame) :
  df_index (update_col col f df) = df_index df.
Proof. unfold update_col. now destruct (in_list col (columns df)). Qed.

Lemma assign_lookup_id (col : string) (cs : list (string * Series)) :
  In col (map fst cs) -> assign_col col (lookup_col col cs) cs = cs.
Proof.
  induction cs as [|[name s] cs IH]; simpl; [tauto|]. intros H.
  destruct (String.eqb col name) eqn:E; [reflexivity|].
  f_equal. apply IH. destruct H as [H|H]; [|exact H].
  subst. now rewrite String.eqb_refl in E.
Qed.

Lemma update_col_id (col : string) (df : DataFrame) :
  update_col col (fun s => s) df = df.
Proof.
  unfold update_col. destruct (in_list col (columns df)) eqn:E; [|reflexivity].
  apply in_list_In in E. destruct df as [idx cs]. unfold setitem, getitem.
  simpl. f_equal. now apply assign_lookup_id.
Qed.


Lemma fold_update_col_columns (F : string -> Series -> Series) (ns : list string) :
  forall df,
  columns (fold_left (fun d a => update_col a (F a) d) ns df) = columns df
  /\ df_index (fold_left (fun d a => update_col a (F a) d) ns df) = df_index df.
Proof.
  induction ns as [|a ns IH]; intros df; simpl; [tauto|].
  destruct (IH (update_col a (F a) df)) as [H1 H2].
  now rewrite H1, H2, columns_update_col, index_update_col.
Qed.


Lemma getitem_map_columns (g : string -> Series -> Series) (df : DataFrame) (col : string) :
  In col (columns df) -> getitem (map_columns g df) col = g col (getitem df col).
Proof.
  unfold getitem, map_columns, columns. simpl.
  induction (df_columns df) as [|[name s] cs IH]; simpl; [tauto|].
  intros H. destruct (String.eqb col name) eqn:E.
  - apply String.eqb_eq in E. now subst.
  - apply IH. destruct H as [H|H]; [|exact H].
    subst. now rewrite String.eqb_refl in E.
Qed.

Lemma lookup_col_In (col : string) (cs : list (string * Series)) :
  In col (map fst cs) -> In (col, lookup_col col cs) cs.
Proof.
  induction cs as [|[name s] cs IH]; simpl; [tauto|]. intros H.
  destruct (String.eqb col name) eqn:E.
  - apply String.eqb_eq in E. subst. now left.
  - right. apply IH. destruct H as [H|H]; [|exact H].
    subst. now rewrite String.eqb_refl in E.
Qed.

Lemma In_lookup_col (col : string) (s : Series) (cs : list (string * Series)) :
  NoDup (map fst cs) -> In (col, s) cs -> lookup_col col cs = s.
Proof.
  induction cs as [|[name s0] cs IH]; simpl; [tauto|].
  intros Hnd Hin. inversion Hnd as [|? ? Hnot Hnd']; subst.
  destruct Hin as [Hin|Hin].
  - inversion Hin; subst. now rewrite String.eqb_refl.
  - destruct (String.eqb col name) eqn:E; [|now apply IH].
    apply String.eqb_eq in E. subst. exfalso. apply Hnot.
    apply in_map_iff. now exists (name, s).
Qed.

Lemma select_dtypes_object_In (df : DataFrame) (col : string) :
  In col (select_dtypes_object df)
  <-> exists s, In (col, s) (df_columns df) /\ is_object (s_dtype s) = true.
Proof.
  unfold select_dtypes_object. rewrite in_map_iff. split.
  - intros [[name s] [E H]]. simpl in E. subst. apply filter_In in H.
    now exists s.
  - intros [s [H1 H2]]. exists (col, s). split; [reflexivity|].
    apply filter_In. tauto.
Qed.

Lemma select_dtypes_object_columns (df : DataFrame) (col : string) :
  In col (select_dtypes_object df) -> In col (columns df).
Proof.
  rewrite select_dtypes_object_In. intros [s [H _]].
  unfold columns. apply in_map_iff. now exists (col, s).
Qed.

Lemma NoDup_map_filter {K V : Type} (key : V -> K) (keep : V -> bool) :
  forall xs : list V, NoDup (map key xs) -> NoDup (map key (filter keep xs)).
Proof.
  intros xs. induction xs as [|x xs IH]; simpl; [tauto|]. intros Hnd.
  inversion Hnd as [|? ? Hnot Hnd']; subst.
  destruct (keep x); simpl; [|now apply IH]. constructor; [|now apply IH].
  intros Hin. apply Hnot. apply in_map_iff in Hin.
  destruct Hin as [y [E Hy]]. apply filter_In in Hy.
  apply in_map_iff. exists y. tauto.
Qed.

Lemma select_dtypes_object_NoDup (df : DataFrame) :
  NoDup (columns df) -> NoDup (select_dtypes_object df).
Proof. apply NoDup_map_filter. Qed.

(** ** The text normaliser, column by column *)

(** What lines 99-112 make of one cell. *)
Definition clean_cell (is_date : bool) (v : cell) : cell :=
  let s := PyStr.strip (py_str v) in
  let s := if is_date then s else PyStr.lower s in
  if String.eqb s "nan" then CNaN
  else if String.eqb s "none" then CNaN
  else CStr s.

Lemma clean_text_cells (is_date : bool) (s : Series) :
  clean_text is_date s = mkSeries object (map (clean_cell is_date) (s_values s)).
Proof.
  unfold clean_text, replace, str_strip, str_lower, str_method, astype_str.
  destruct is_date; simpl; f_equal; rewrite !map_map; apply map_ext;
    intros v; unfold clean_cell; simpl;
    destruct (String.eqb _ "nan"); simpl; try reflexivity;
    destruct (String.eqb _ "none"); reflexivity.
Qed.

Lemma clean_cell_idem (is_date : bool) (v : cell) :
  clean_cell is_date (clean_cell is_date v) = clean_cell is_date v.
Proof.
  set (s := if is_date then PyStr.strip (py_str v)
            else PyStr.lower (PyStr.strip (py_str v))).
  assert (Hv : clean_cell is_date v =
               if String.eqb s "nan" then CNaN
               else if String.eqb s "none" then CNaN else CStr s)
    by (subst s; unfold clean_cell; now destruct is_date).
  rewrite Hv.
  assert (Hs : (if is_date then PyStr.strip s else PyStr.lower (PyStr.strip s)) = s).
  { subst s. destruct is_date.
    - apply PyStrFacts.strip_idem.
    - rewrite PyStrFacts.strip_lower_strip. apply PyStrFacts.lower_idem. }
  destruct (String.eqb s "nan") eqn:E1; [now destruct is_date|].
  destruct (String.eqb s "none") eqn:E2; [now destruct is_date|].
  unfold clean_cell. simpl. rewrite Hs, E1, E2. reflexivity.
Qed.

Lemma clean_text_idem (is_date : bool) (s : Series) :
  clean_text is_date (clean_text is_date s) = clean_text is_date s.
Proof.
  rewrite !clean_text_cells. simpl. f_equal. rewrite map_map.
  apply map_ext. intros v. apply clean_cell_idem.
Qed.

(** The rewriting of one column by the text normaliser. *)
Definition normalize_column (date_columns exclude_columns : list string)
  (name : string) (s : Series) : Series :=
  if is_object (s_dtype s) && negb (in_list name exclude_columns)
  then clean_text (in_list name date_columns) s
  else s.

Lemma normalize_step_update (dc ex : list string) (d : DataFrame) (col : string) :
  In col (columns d) ->
  normalize_step dc ex d col =
  update_col col (fun s => if in_list col ex then s
                           else clean_text (in_list col dc) s) d.
Proof.
  intros Hin. unfold normalize_step.
  destruct (in_list col ex); simpl.
  - symmetry. apply update_col_id.
  - unfold update_col. apply in_list_In in Hin. now rewrite Hin.
Qed.

Lemma normalize_fold_update (dc ex : list string) (ns : list string) :
  forall d, (forall c, In c ns -> In c (columns d)) ->
  fold_left (normalize_step dc ex) ns d =
  fold_left (fun d a => update_col a
               (fun s => if in_list a ex then s
                         else clean_text (in_list a dc) s) d) ns d.
Proof.
  induction ns as [|a ns IH]; intros d Hsub; simpl; [reflexivity|].
  rewrite normalize_step_update by (apply Hsub; now left).
  apply IH. intros c Hc. rewrite columns_update_col. apply Hsub. now right.
Qed.

Lemma normalize_text_as_map (df : DataFrame) (dc ex : list string) :
  NoDup (columns df) ->
  normalize_text df dc ex = map_columns (normalize_column dc ex) df.
Proof.
  intros Hnd. unfold normalize_text.
  rewrite normalize_fold_update by apply select_dtypes_object_columns.
  rewrite fold_update_col_as_map
    by (try exact Hnd; now apply select_dtypes_object_NoDup).
  unfold map_columns. f_equal. apply map_ext_in. intros [name s] Hin. simpl.
  f_equal. unfold normalize_column.
  destruct (in_list name (select_dtypes_object df)) eqn:E.
  - apply in_list_In, select_dtypes_object_In in E. destruct E as [s' [H1 H2]].
    assert (s' = s).
    { rewrite <- (In_lookup_col name s' (df_columns df) Hnd H1).
      now apply In_lookup_col. }
    subst s'. rewrite H2. simpl. now destruct (in_list name ex).
  - destruct (is_object (s_dtype s)) eqn:Eo; [|reflexivity].
    apply in_list_not_In in E. exfalso. apply E.
    apply select_dtypes_object_In. now exists s.
Qed.

Lemma columns_normalize_text (df : DataFrame) (dc ex : list string) :
  columns (normalize_text df dc ex) = columns df
  /\ df_index (normalize_text df dc ex) = df_index df.
Proof.
  unfold normalize_text.
  rewrite normalize_fold_update by apply select_dtypes_object_columns.
  apply fold_update_col_columns.
Qed.

(** ** The row reducer *)

Lemma len_dropna_all (df : DataFrame) : len (dropna_all df) <= len df.
Proof.
  unfold dropna_all. rewrite len_take.
  etransitivity; [apply filter_length_le'|]. now rewrite length_seq.
Qed.

Lemma len_drop_duplicates (df : DataFrame) : len (drop_duplicates df) <= len df.
Proof.
  unfold drop_duplicates. destruct (empty df); [reflexivity|].
  rewrite len_take. etransitivity; [apply filter_length_le'|].
  now rewrite length_seq.
Qed.

Lemma columns_dropna_all (df : DataFrame) : columns (dropna_all df) = columns df.
Proof. apply columns_take. Qed.

Lemma columns_drop_duplicates (df : DataFrame) :
  columns (drop_duplicates df) = columns df.
Proof.
  unfold drop_duplicates. destruct (empty df); [reflexivity | apply columns_take].
Qed.

Lemma columns_reduce_rows (df : DataFrame) :
  columns (reduce_rows df) = columns df.
Proof.
  unfold reduce_rows.
  change (columns (drop_duplicates (dropna_all df)) = columns df).
  now rewrite columns_drop_duplicates, columns_dropna_all.
Qed.

Lemma rows_reduce_rows_subseq (df : DataFrame) :
  subseq (rows (reduce_rows df)) (rows df).
Proof.
  rewrite rows_reduce_rows. unfold spec_reduce_rows.
  eapply subseq_trans; [apply subseq_keep_first_from | apply subseq_filter].
Qed.

Lemma count_partition {A : Type} (p : A -> bool) (l : list A) :
  length (filter (fun x => negb (p x)) l) + length (filter p l) = length l.
Proof.
  induction l as [|x l IH]; simpl; [reflexivity|].
  destruct (p x); simpl; lia.
Qed.

(** [C3] The row reducer, on the rows of any frame, is the reducer of the
    specification: the rows whose cells are all missing go first, then every
    row that is the same as an earlier row that stayed, and the index is
    renumbered from zero.  So: no row that stays is all missing; no two rows
    that stay are the same; every row that is not all missing has a row that
    stays and is the same; the rows that stay are in the order they had; the
    first step removes as many rows as are all missing, the ones that are
    the same as another included; the labels are as they were. *)
Theorem reduce_rows_contract (df : DataFrame) :
  let out := reduce_rows df in
  rows out = spec_reduce_rows (rows df)
  /\ (forall r, In r (rows out) -> all_missing r = false)
  /\ ForallOrdPairs (fun a b => same_row a b = false) (rows out)
  /\ (forall r, In r (rows df) -> all_missing r = false ->
        exists k, In k (rows out) /\ same_row k r = true)
  /\ subseq (rows out) (rows df)
  /\ len (dropna_all df) + length (filter all_missing (rows df)) = len df
  /\ df_index out = map Z.of_nat (seq 0 (len out))
  /\ columns out = columns df.
Proof.
  intros out. subst out. rewrite rows_reduce_rows. unfold spec_reduce_rows.
  split; [reflexivity|]. split; [|split; [|split; [|split; [|split; [|split]]]]].
  - intros r Hr.
    assert (Hsub := subseq_keep_first_from
                      (filter (fun r => negb (all_missing r)) (rows df)) []).
    assert (Hin : In r (filter (fun r => negb (all_missing r)) (rows df)))
      by (eapply subseq_In; eassumption).
    apply filter_In in Hin. now apply negb_true_iff.
  - apply keep_first_from_distinct.
  - intros r Hr Hm.
    assert (Hin : In r (filter (fun r => negb (all_missing r)) (rows df)))
      by (apply filter_In; rewrite Hm; tauto).
    apply (keep_first_from_covers _ []) in Hin. simpl in Hin.
    apply existsb_exists in Hin. exact Hin.
  - pose proof (rows_reduce_rows_subseq df) as H.
    now rewrite rows_reduce_rows in H.
  - rewrite <- length_rows, rows_dropna_all, <- (length_rows df).
    apply count_partition.
  - unfold reduce_rows. rewrite len_reset_index. reflexivity.
  - apply columns_reduce_rows.
Qed.

(** ** The text normaliser *)

Lemma normalize_column_idem (dc ex : list string) (name : string) (s : Series) :
  normalize_column dc ex name (normalize_column dc ex name s)
  = normalize_column dc ex name s.
Proof.
  unfold normalize_column.
  destruct (is_object (s_dtype s) && negb (in_list name ex)) eqn:E.
  - apply andb_true_iff in E. destruct E as [_ E].
    assert (Ho : s_dtype (clean_text (in_list name dc) s) = object)
      by (now rewrite clean_text_cells).
    rewrite Ho, E. simpl. apply clean_text_idem.
  - now rewrite E.
Qed.

(** [C7] The text normaliser, run on its own result with the same date
    columns and the same exclusions, changes nothing. *)
Theorem normalize_text_idempotent (df : DataFrame) (dc ex : list string) :
  NoDup (columns df) ->
  normalize_text (normalize_text df dc ex) dc ex = normalize_text df dc ex.
Proof.
  intros Hnd. rewrite (normalize_text_as_map df dc ex Hnd).
  rewrite normalize_text_as_map by (now rewrite columns_map_columns).
  unfold map_columns. simpl. f_equal. rewrite map_map. apply map_ext.
  intros [name s]. simpl. f_equal. apply normalize_column_idem.
Qed.

Lemma object_column_of_frame (df : DataFrame) (col : string) :
  NoDup (columns df) -> In col (select_dtypes_object df) ->
  is_object (s_dtype (getitem df col)) = true.
Proof.
  intros Hnd H. apply select_dtypes_object_In in H. destruct H as [s [H1 H2]].
  unfold getitem. now rewrite (In_lookup_col col s (df_columns df) Hnd H1).
Qed.

(** [C6] In a text column that is neither excluded nor a date column, a
    cell becomes its text, trimmed and then lower-cased, and the missing
    marker when that text is [nan] or [none]: the lower-casing comes before
    the replacement, so that [NaN] and [None] are caught, and no cell of the
    result is the text [nan] or [none]. *)
Theorem sentinels_become_missing (df : DataFrame) (dc ex : list string) (col : string) :
  NoDup (columns df) -> In col (select_dtypes_object df) ->
  ~ In col ex -> ~ In col dc ->
  let before := s_values (getitem df col) in
  let after := s_values (getitem (normalize_text df dc ex) col) in
  length after = length before
  /\ (forall i v, nth_error before i = Some v ->
        let folded := PyStr.lower (PyStr.strip (py_str v)) in
        nth_error after i =
        Some (if String.eqb folded "nan" || String.eqb folded "none"
              then CNaN else CStr folded))
  /\ ~ In (CStr "nan") after
  /\ ~ In (CStr "none") after.
Proof.
  intros Hnd Hobj Hex Hdc before after.
  assert (Hafter : after = map (clean_cell false) before).
  { subst after before. rewrite normalize_text_as_map by exact Hnd.
    rewrite getitem_map_columns by (now apply select_dtypes_object_columns).
    unfold normalize_column. rewrite (object_column_of_frame df col Hnd Hobj).
    apply in_list_not_In in Hex, Hdc. rewrite Hex, Hdc. cbn [negb andb].
    now rewrite clean_text_cells. }
  rewrite Hafter. split; [apply length_map|]. split; [|split].
  - intros i v Hv folded. rewrite nth_error_map, Hv. simpl. f_equal.
    unfold clean_cell. fold folded.
    destruct (String.eqb folded "nan"); [reflexivity|].
    now destruct (String.eqb folded "none").
  - intros H. apply in_map_iff in H. destruct H as [v [E _]].
    unfold clean_cell in E.
    destruct (String.eqb _ "nan") eqn:E1; [discriminate|].
    destruct (String.eqb _ "none") eqn:E2; [discriminate|].
    inversion E as [E']. rewrite E' in E1. discriminate.
  - intros H. apply in_map_iff in H. destruct H as [v [E _]].
    unfold clean_cell in E.
    destruct (String.eqb _ "nan") eqn:E1; [discriminate|].
    destruct (String.eqb _ "none") eqn:E2; [discriminate|].
    inversion E as [E']. rewrite E' in E2. discriminate.
Qed.

Section CleanerFacts.

Variable to_datetime_scalar : string -> bool.
Variable to_datetime_error : list cell -> option string.
Variable to_datetime_value : list cell -> cell -> option string.

(** The sampled values the loop counts, the ones it calls [pd.to_datetime]
    on, and the ones the call accepts. *)
Definition eligible_samples (df : DataFrame) (col : string) : list cell :=
  filter is_str_int_float (sample_values df col).

Definition attempted_samples (df : DataFrame) (col : string) : list cell :=
  filter (fun v => looks_like_date (py_str v)) (eligible_samples df col).

Definition parsed_samples (df : DataFrame) (col : string) : list cell :=
  filter (fun v => to_datetime_scalar (py_str v)) (attempted_samples df col).

Lemma fold_inspect (vs : list cell) :
  forall t,
  let eligible := filter is_str_int_float vs in
  let attempted := filter (fun v => looks_like_date (py_str v)) eligible in
  let parsed := filter (fun v => to_datetime_scalar (py_str v)) attempted in
  fold_left (inspect to_datetime_scalar) vs t
  = mkTally (date_indicators t + length parsed)
      (total_sampled t + length eligible)
      (parse_calls t ++ map py_str attempted).
Proof.
  induction vs as [|v vs IH]; intros [di total calls]; simpl.
  - now rewrite !Nat.add_0_r, app_nil_r.
  - rewrite IH. unfold inspect.
    destruct v as [s|z|r|[]|iso| | |]; simpl; try reflexivity;
      repeat match goal with
             | |- context [if ?b then _ else _] => destruct b; simpl
             end;
      rewrite <- ?app_assoc; simpl; f_equal; lia.
Qed.

Lemma inspect_column_counts (df : DataFrame) (col : string) :
  inspect_column to_datetime_scalar df col
  = mkTally (length (parsed_samples df col)) (length (eligible_samples df col))
      (map py_str (attempted_samples df col)).
Proof. unfold inspect_column. now rewrite fold_inspect. Qed.

Lemma sample_values_short (df : DataFrame) (col : string) :
  length (sample_values df col) <= 20.
Proof. unfold sample_values, head, dropna, s_values. apply firstn_le_length. Qed.

(** The decision of line 50 on the counts. *)
Lemma significant_counts (df : DataFrame) (col : string) :
  significant (inspect_column to_datetime_scalar df col) = true
  <-> 3 * length (eligible_samples df col) < 10 * length (parsed_samples df col).
Proof.
  rewrite inspect_column_counts. unfold significant. simpl.
  assert (H1 : length (parsed_samples df col) <= length (eligible_samples df col)).
  { unfold parsed_samples, attempted_samples.
    etransitivity; apply filter_length_le'. }
  assert (H2 : length (eligible_samples df col) <= 20).
  { unfold eligible_samples. etransitivity; [apply filter_length_le'|].
    apply sample_values_short. }
  rewrite ratio_exceeds_exact by assumption.
  rewrite andb_true_iff, !Nat.ltb_lt. lia.
Qed.

(** ** [detect_date_columns]: what the loop over the columns builds *)

Lemma content_fold_dates (df : DataFrame) (cols : list string) :
  forall st c,
  In c (fst (fold_left (content_step to_datetime_scalar df) cols st))
  <-> In c (fst st)
      \/ (In c cols /\ sample_values df c <> []
          /\ significant (inspect_column to_datetime_scalar df c) = true).
Proof.
  induction cols as [|a cols IH]; intros [dc calls] c; simpl; [tauto|].
  rewrite IH. unfold content_step.
  destruct (in_list a dc) eqn:Ein; simpl.
  - apply in_list_In in Ein. split; [tauto|].
    intros [H|[[H|H] HP]]; subst; tauto.
  - destruct (length (sample_values df a) =? 0) eqn:El; simpl.
    + apply Nat.eqb_eq, length_zero_iff_nil in El. split; [tauto|].
      intros [H|[[H|H] [HP1 HP2]]]; subst; tauto.
    + apply Nat.eqb_neq in El.
      assert (Hne : sample_values df a <> [])
        by (intros E; apply El; now rewrite E).
      destruct (significant (inspect_column to_datetime_scalar df a)) eqn:Es.
      * rewrite in_app_iff. simpl. split.
        -- intros [[H|[H|[]]]|H]; subst; tauto.
        -- intros [H|[[H|H] HP]]; subst; tauto.
      * split; [tauto|].
        intros [H|[[H|H] [HP1 HP2]]]; subst; try tauto. congruence.
Qed.

Lemma content_fold_calls (df : DataFrame) (cols : list string) :
  forall st c s,
  In (c, s) (snd (fold_left (content_step to_datetime_scalar df) cols st))
  <-> In (c, s) (snd st)
      \/ (In c cols /\ ~ In c (fst st) /\ sample_values df c <> []
          /\ In s (parse_calls (inspect_column to_datetime_scalar df c))).
Proof.
  induction cols as [|a cols IH]; intros [dc calls] c s; simpl; [tauto|].
  rewrite IH. unfold content_step.
  destruct (in_list a dc) eqn:Ein; simpl.
  - apply in_list_In in Ein. split; [tauto|].
    intros [H|[[H|H] HP]]; subst; tauto.
  - apply in_list_not_In in Ein.
    destruct (length (sample_values df a) =? 0) eqn:El; simpl.
    + apply Nat.eqb_eq, length_zero_iff_nil in El. split; [tauto|].
      intros [H|[[H|H] [HP0 [HP1 HP2]]]]; subst; tauto.
    + apply Nat.eqb_neq in El.
      assert (Hne : sample_values df a <> [])
        by (intros E; apply El; now rewrite E).
      rewrite in_app_iff, in_map_iff.
      assert (Hsub : forall x, In x dc ->
                In x (if significant (inspect_column to_datetime_scalar df a)
                      then dc ++ [a] else dc)).
      { intros x Hx. destruct (significant _); [apply in_app_iff|]; tauto. }
      assert (Hnew : forall x, x <> a -> ~ In x dc ->
                ~ In x (if significant (inspect_column to_datetime_scalar df a)
                        then dc ++ [a] else dc)).
      { intros x Hxa Hx. destruct (significant _); [rewrite in_app_iff|];
          simpl; intuition congruence. }
      split.
      * intros [[H|[y [Hy Hin]]]|[Hc [Hnot HP]]].
        -- tauto.
        -- inversion Hy; subst. right. tauto.
        -- right. split; [tauto|]. split; [|exact HP].
           intros Hdc. apply Hnot, Hsub, Hdc.
      * intros [H|[[H|H] [Hnot [HP1 HP2]]]].
        -- tauto.
        -- subst. left. right. exists s. tauto.
        -- destruct (string_dec c a) as [E|E].
           ++ subst. left. right. exists s. tauto.
           ++ right. split; [exact H|]. split; [now apply Hnew|]. tauto.
Qed.

(** The columns [detect_date_columns] returns. *)
Lemma detect_date_columns_spec (df : DataFrame) (c : string) :
  In c (detect_date_columns to_datetime_scalar df)
  <-> In c (columns df)
      /\ (name_is_date c = true
          \/ (sample_values df c <> []
              /\ significant (inspect_column to_datetime_scalar df c) = true)).
Proof.
  unfold detect_date_columns, detect_date_columns_traced.
  rewrite content_fold_dates. simpl. rewrite name_pass_filter, filter_In. tauto.
Qed.

Lemma content_fold_NoDup (df : DataFrame) (cols : list string) :
  forall st, NoDup (fst st) ->
  NoDup (fst (fold_left (content_step to_datetime_scalar df) cols st)).
Proof.
  induction cols as [|a cols IH]; intros [dc calls] Hnd; simpl; [exact Hnd|].
  apply IH. unfold content_step.
  destruct (in_list a dc) eqn:Ein; simpl; [exact Hnd|].
  destruct (length (sample_values df a) =? 0); simpl; [exact Hnd|].
  destruct (significant _); [|exact Hnd].
  apply in_list_not_In in Ein.
  apply NoDup_app; [exact Hnd | repeat constructor; simpl; tauto |].
  intros x Hx [Hx'|[]]. subst. contradiction.
Qed.

Lemma detect_date_columns_NoDup (df : DataFrame) :
  NoDup (columns df) -> NoDup (detect_date_columns to_datetime_scalar df).
Proof.
  intros Hnd. apply content_fold_NoDup. simpl.
  rewrite name_pass_filter. now apply NoDup_filter.
Qed.

(** [C2] A column whose lower-cased label contains one of the keywords is
    returned by [detect_date_columns] whatever its cells are, and the
    content pass skips it: no call of [pd.to_datetime] is made for it. *)
Theorem name_match_is_date (df : DataFrame) (col : string) :
  In col (columns df) -> name_is_date col = true ->
  In col (detect_date_columns to_datetime_scalar df)
  /\ forall s, ~ In (col, s) (snd (detect_date_columns_traced to_datetime_scalar df)).
Proof.
  intros Hin Hname. split.
  - apply detect_date_columns_spec. tauto.
  - intros s. unfold detect_date_columns_traced.
    rewrite content_fold_calls. simpl. intros [[]|[_ [Hnot _]]].
    apply Hnot. rewrite name_pass_filter. apply filter_In. tauto.
Qed.

(** [C1], as the program has it.  For a column that the name pass did not
    take and that has a sampled value: [pd.to_datetime] is called exactly on
    the sampled strings, integers and floats whose text has a separator and
    a digit; the column is returned exactly when the accepted calls are more
    than three tenths of the sampled strings, integers and floats, whether
    a call was made for them or not; with no call it is not returned. *)
Theorem content_pass_rule (df : DataFrame) (col : string) :
  In col (columns df) -> name_is_date col = false -> sample_values df col <> [] ->
  (forall s, In (col, s) (snd (detect_date_columns_traced to_datetime_scalar df))
             <-> In s (map py_str (attempted_samples df col)))
  /\ (forall s, In s (map py_str (attempted_samples df col)) ->
        (exists sep, In sep separators /\ PyStr.contains sep s = true)
        /\ PyStr.any_char PyStr.isdigit s = true)
  /\ (In col (detect_date_columns to_datetime_scalar df)
      <-> 3 * length (eligible_samples df col) < 10 * length (parsed_samples df col))
  /\ (attempted_samples df col = [] ->
      ~ In col (detect_date_columns to_datetime_scalar df)).
Proof.
  intros Hin Hname Hsample.
  assert (Hdet : In col (detect_date_columns to_datetime_scalar df)
      <-> 3 * length (eligible_samples df col) < 10 * length (parsed_samples df col)).
  { rewrite detect_date_columns_spec, significant_counts.
    rewrite Hname. intuition discriminate. }
  repeat split.
  - unfold detect_date_columns_traced. rewrite content_fold_calls. simpl.
    rewrite inspect_column_counts. simpl. intros [[]|H]. tauto.
  - intros Hs. unfold detect_date_columns_traced.
    rewrite content_fold_calls. simpl. right.
    rewrite inspect_column_counts. simpl. repeat split; try assumption.
    rewrite name_pass_filter, filter_In. rewrite Hname. intuition discriminate.
  - apply in_map_iff in H. destruct H as [v [E Hv]]. subst s.
    unfold attempted_samples in Hv. apply filter_In in Hv.
    now apply looks_like_date_spec.
  - apply in_map_iff in H. destruct H as [v [E Hv]]. subst s.
    unfold attempted_samples in Hv. apply filter_In in Hv.
    now apply looks_like_date_spec.
  - apply Hdet.
  - apply Hdet.
  - intros Hnone Hcol. apply Hdet in Hcol.
    unfold parsed_samples in Hcol. rewrite Hnone in Hcol. simpl in Hcol. lia.
Qed.

(** ** [convert_to_datetime], column by column *)

(** What the loop makes of one listed column that the frame has. *)
Definition converted (s : Series) : Series :=
  match to_datetime_coerce to_datetime_error to_datetime_value s with
  | inr s' => s'
  | inl _ => s
  end.

Local Abbreviation convert_step' :=
  (convert_step to_datetime_error to_datetime_value).
Local Abbreviation convert_to_datetime' :=
  (convert_to_datetime to_datetime_error to_datetime_value).
Local Abbreviation to_datetime_coerce' :=
  (to_datetime_coerce to_datetime_error to_datetime_value).

Lemma convert_step_fst (st : DataFrame * list warning) (col : string) :
  fst (convert_step' st col) = update_col col converted (fst st).
Proof.
  destruct st as [d ws]. unfold convert_step, update_col, converted. simpl.
  destruct (in_list col (columns d)) eqn:E; simpl; [|reflexivity].
  destruct (to_datetime_coerce' (getitem d col)); simpl; [|reflexivity].
  apply in_list_In in E. destruct d as [idx cs]. unfold setitem, getitem.
  simpl. f_equal. symmetry. now apply assign_lookup_id.
Qed.

Lemma convert_fold_fst (dc : list string) :
  forall st,
  fst (fold_left convert_step' dc st)
  = fold_left (fun d a => update_col a converted d) dc (fst st).
Proof.
  induction dc as [|a dc IH]; intros st; simpl; [reflexivity|].
  now rewrite IH, convert_step_fst.
Qed.



Lemma convert_columns (df : DataFrame) (dc : list string) :
  columns (fst (convert_to_datetime' df dc)) = columns df
  /\ df_index (fst (convert_to_datetime' df dc)) = df_index df.
Proof.
  unfold convert_to_datetime. rewrite convert_fold_fst. simpl.
  apply fold_update_col_columns.
Qed.

Lemma converted_length (s : Series) :
  length (s_values (converted s)) = length (s_values s).
Proof.
  unfold converted, to_datetime_coerce.
  destruct (to_datetime_error (s_values s)); simpl; [reflexivity|].
  apply length_map.
Qed.


(** ** The stages of [clean_dataframe] *)

Local Abbreviation detect' := (detect_date_columns to_datetime_scalar).
Local Abbreviation clean_dataframe' :=
  (clean_dataframe to_datetime_scalar to_datetime_error to_datetime_value).

(** The working frame after line 90 and after line 112. *)
Definition converted_frame (df : DataFrame) : DataFrame :=
  fst (convert_to_datetime' df (detect' df)).

Definition normalized_frame (df : DataFrame) (exclude_columns : list string)
  : DataFrame :=
  normalize_text (converted_frame df) (detect' df) exclude_columns.

Lemma clean_dataframe_stages (df : DataFrame) (ex : list string) :
  clean_dataframe' df ex =
  let n := normalized_frame df ex in
  (reduce_rows n,
   mkMetrics (Z.of_nat (len df)) (Z.of_nat (length (df_columns df)))
     (detect' df) (select_dtypes_object (converted_frame df))
     (Z.of_nat (len df) - Z.of_nat (len (dropna_all n)))
     (Z.of_nat (len (dropna_all n))
      - Z.of_nat (len (drop_duplicates (dropna_all n))))
     (Z.of_nat (len (reduce_rows n)))
     (Z.of_nat (length (df_columns (reduce_rows n))))
     (Z.of_nat (len df) - Z.of_nat (len (reduce_rows n))),
   snd (convert_to_datetime' df (detect' df))).
Proof.
  unfold clean_dataframe, normalized_frame, converted_frame, reduce_rows, shape.
  destruct (convert_to_datetime' df (detect' df)) as [d ws]. simpl.
  reflexivity.
Qed.

Lemma len_normalized_frame (df : DataFrame) (ex : list string) :
  len (normalized_frame df ex) = len df
  /\ columns (normalized_frame df ex) = columns df.
Proof.
  unfold normalized_frame, converted_frame, len.
  destruct (columns_normalize_text
              (fst (convert_to_datetime' df (detect' df))) (detect' df) ex)
    as [H1 H2].
  destruct (convert_columns df (detect' df)) as [H3 H4].
  rewrite H1, H2, H3, H4. tauto.
Qed.

(** [C4] The counts of one run: the total is the rows removed as empty plus
    the rows removed as duplicates, and the final count plus the total is
    the initial count; the counts are those of the frames, and none is
    negative. *)
Theorem metrics_balance (df : DataFrame) (ex : list string) :
  let m := snd (fst (clean_dataframe' df ex)) in
  let out := fst (fst (clean_dataframe' df ex)) in
  (total_removed m = all_nan_removed m + duplicates_removed m
   /\ final_rows m + total_removed m = initial_rows m
   /\ initial_rows m = Z.of_nat (len df)
   /\ final_rows m = Z.of_nat (len out)
   /\ 0 <= all_nan_removed m
   /\ 0 <= duplicates_removed m)%Z.
Proof.
  rewrite clean_dataframe_stages. simpl.
  pose proof (len_dropna_all (normalized_frame df ex)) as H1.
  pose proof (len_drop_duplicates (dropna_all (normalized_frame df ex))) as H2.
  destruct (len_normalized_frame df ex) as [H3 _].
  unfold reduce_rows. rewrite len_reset_index. lia.
Qed.


(** ** The layout of the cleaned frame *)

(** What a run makes of one column before the rows are reduced. *)
Definition pipeline_column (df : DataFrame) (ex : list string)
  (name : string) (s : Series) : Series :=
  normalize_column (detect' df) ex name
    (if in_list name (detect' df) then converted s else s).

Lemma converted_frame_as_map (df : DataFrame) :
  NoDup (columns df) ->
  converted_frame df =
  map_columns (fun name s => if in_list name (detect' df) then converted s else s) df.
Proof.
  intros Hnd. unfold converted_frame, convert_to_datetime.
  rewrite convert_fold_fst. simpl.
  apply fold_update_col_as_map; [exact Hnd|].
  now apply detect_date_columns_NoDup.
Qed.

Lemma normalized_frame_as_map (df : DataFrame) (ex : list string) :
  NoDup (columns df) ->
  normalized_frame df ex = map_columns (pipeline_column df ex) df.
Proof.
  intros Hnd. unfold normalized_frame.
  rewrite normalize_text_as_map
    by (rewrite converted_frame_as_map, columns_map_columns; assumption).
  rewrite converted_frame_as_map by exact Hnd.
  unfold map_columns. simpl. f_equal. rewrite map_map. reflexivity.
Qed.

Lemma pipeline_column_cellwise (df : DataFrame) (ex : list string)
  (name : string) (s : Series) :
  exists g : cell -> cell,
    s_values (pipeline_column df ex name s) = map g (s_values s).
Proof.
  unfold pipeline_column, normalize_column, converted, to_datetime_coerce.
  set (conv := fun v => match to_datetime_value (s_values s) v with
                        | Some t => CTime t
                        | None => CNaT
                        end).
  destruct (in_list name (detect' df)).
  - destruct (to_datetime_error (s_values s)); simpl.
    + destruct (is_object (s_dtype s) && negb (in_list name ex)).
      * exists (clean_cell true). now rewrite clean_text_cells.
      * exists (fun v => v). now rewrite map_id.
    + exists conv. reflexivity.
  - destruct (is_object (s_dtype s) && negb (in_list name ex)).
    + exists (clean_cell false). now rewrite clean_text_cells.
    + exists (fun v => v). now rewrite map_id.
Qed.

(** [C10] The cleaned frame has the labels of the input, in their order.
    Before the rows are reduced the working frame has the rows of the input,
    each column rewritten cell by cell in its place, and the rows of the
    cleaned frame are rows of that frame in the order they have there. *)
Theorem clean_dataframe_layout (df : DataFrame) (ex : list string) :
  NoDup (columns df) ->
  let out := fst (fst (clean_dataframe' df ex)) in
  let n := normalized_frame df ex in
  columns out = columns df
  /\ n = map_columns (pipeline_column df ex) df
  /\ (forall name s, exists g : cell -> cell,
        s_values (pipeline_column df ex name s) = map g (s_values s))
  /\ len n = len df
  /\ subseq (rows out) (rows n).
Proof.
  intros Hnd out n. subst out n. rewrite clean_dataframe_stages. simpl.
  destruct (len_normalized_frame df ex) as [Hl Hc].
  split; [now rewrite columns_reduce_rows|].
  split; [now apply normalized_frame_as_map|].
  split; [intros; apply pipeline_column_cellwise|].
  split; [exact Hl|].
  apply rows_reduce_rows_subseq.
Qed.

(** ** The store: the caller's frame is not written to *)

Local Notation "x <- m ;; k" := (bind m (fun x => k))
  (at level 61, m at next level, right associativity).
Local Notation "m ;;; k" := (bind m (fun _ => k))
  (at level 61, right associativity).

Lemma update_nth_id (r : ref) (h : list DataFrame) :
  update r (nth r h empty_frame) h = h.
Proof.
  revert r. induction h as [|d h IH]; intros [|r]; simpl; try reflexivity.
  now rewrite IH.
Qed.

Lemma update_update (r : ref) (d1 d2 : DataFrame) (h : list DataFrame) :
  update r d2 (update r d1 h) = update r d2 h.
Proof.
  revert r. induction h as [|d h IH]; intros [|r]; simpl; try reflexivity.
  now rewrite IH.
Qed.

Lemma nth_update_same (r : ref) (d : DataFrame) (h : list DataFrame) :
  r < length h -> nth r (update r d h) empty_frame = d.
Proof.
  revert r. induction h as [|d0 h IH]; intros [|r]; simpl; try lia;
    [reflexivity|].
  intros H. apply IH. lia.
Qed.

Lemma update_app (k : nat) (d : DataFrame) (h l : list DataFrame) :
  update (length h + k) d (h ++ l) = h ++ update k d l.
Proof. induction h as [|d0 h IH]; simpl; [reflexivity | now rewrite IH]. Qed.

Lemma nth_app_plus (k : nat) (h l : list DataFrame) :
  nth (length h + k) (h ++ l) empty_frame = nth k l empty_frame.
Proof. induction h as [|d0 h IH]; simpl; [reflexivity | exact IH]. Qed.

Lemma getitem_setitem (d : DataFrame) (col : string) (s : Series) :
  getitem (setitem d col s) col = s.
Proof. apply lookup_assign_same. Qed.

Lemma setitem_setitem (d : DataFrame) (col : string) (s s' : Series) :
  setitem (setitem d col s) col s' = setitem d col s'.
Proof.
  unfold setitem. simpl. f_equal.
  induction (df_columns d) as [|[name s0] cs IH]; simpl.
  - now rewrite String.eqb_refl.
  - destruct (String.eqb col name) eqn:E; simpl; rewrite E; [reflexivity|].
    now rewrite IH.
Qed.

Lemma convert_fold_snd_app (dc : list string) :
  forall d ws,
  snd (fold_left convert_step' dc (d, ws))
  = ws ++ snd (fold_left convert_step' dc (d, [])).
Proof.
  induction dc as [|a dc IH]; intros d ws; simpl; [now rewrite app_nil_r|].
  destruct (negb (in_list a (columns d))); [apply IH|].
  destruct (to_datetime_coerce' (getitem d a)); [|apply IH].
  rewrite IH. symmetry. rewrite IH. now rewrite app_assoc.
Qed.

(** The body of the loop of [convert_to_datetime] on the frame behind [r]
    is [convert_step] on that frame. *)
Definition convert_body (r : ref) (col : string) : prog unit :=
  d <- deref r ;;
  if negb (in_list col (columns d)) then ret tt
  else
    s <- column_of r col ;;
    match to_datetime_coerce' s with
    | inr s' => assign r col s'
    | inl e => print_warning (col, e)
    end.

Lemma run_convert_body (r : ref) (col : string) (w : world) :
  convert_body r col w =
  (tt, mkWorld
         (update r (fst (convert_step' (nth r (heap w) empty_frame, []) col)) (heap w))
         (stdout w ++ snd (convert_step' (nth r (heap w) empty_frame, []) col))).
Proof.
  destruct w as [h out].
  unfold convert_body, bind, deref, ret, column_of, assign, print_warning,
    convert_step. simpl.
  destruct (in_list col (columns (nth r h empty_frame))); simpl.
  - destruct (to_datetime_coerce' (getitem (nth r h empty_frame) col)); simpl.
    + now rewrite update_nth_id.
    + now rewrite app_nil_r.
  - now rewrite update_nth_id, app_nil_r.
Qed.

Lemma run_convert_loop (r : ref) (dc : list string) :
  forall w, r < length (heap w) ->
  for_each dc (convert_body r) w =
  (tt, mkWorld
         (update r (fst (convert_to_datetime' (nth r (heap w) empty_frame) dc)) (heap w))
         (stdout w ++ snd (convert_to_datetime' (nth r (heap w) empty_frame) dc))).
Proof.
  unfold convert_to_datetime.
  induction dc as [|a dc IH]; intros [h out] Hr;
    cbn [for_each fold_left heap stdout fst snd] in *.
  - unfold ret. now rewrite update_nth_id, app_nil_r.
  - unfold bind at 1. rewrite run_convert_body. cbn [heap stdout].
    remember (convert_step' (nth r h empty_frame, []) a) as st1 eqn:E.
    destruct st1 as [d1 ws1]. cbn [fst snd].
    rewrite IH; cbn [heap stdout].
    + rewrite nth_update_same by exact Hr. rewrite update_update.
      f_equal. f_equal.
      * f_equal. rewrite !convert_fold_fst. reflexivity.
      * rewrite (convert_fold_snd_app dc d1 ws1). now rewrite app_assoc.
    + clear - Hr. revert r Hr. induction h as [|d0 h IHh]; intros [|r] Hr;
        simpl in *; try lia. specialize (IHh r). lia.
Qed.

Lemma update_middle (x d : DataFrame) (h l : list DataFrame) :
  update (length h) x (h ++ d :: l) = h ++ x :: l.
Proof. induction h as [|d0 h IH]; simpl; [reflexivity | now rewrite IH]. Qed.

Lemma run_convert_to_datetime_imp (r : ref) (dc : list string) (w : world) :
  convert_to_datetime_imp to_datetime_error to_datetime_value r dc w =
  (length (heap w),
   mkWorld
     (heap w ++ [fst (convert_to_datetime' (nth r (heap w) empty_frame) dc)])
     (stdout w ++ snd (convert_to_datetime' (nth r (heap w) empty_frame) dc))).
Proof.
  destruct w as [h out]. unfold convert_to_datetime_imp, copy.
  unfold bind at 1. unfold bind at 1. unfold deref at 1. unfold alloc.
  cbn [heap stdout]. unfold bind at 1.
  change (for_each dc _) with (for_each dc (convert_body (length h))).
  rewrite run_convert_loop by (cbn [heap]; rewrite length_app; simpl; lia).
  cbn [heap stdout]. rewrite nth_middle. unfold ret.
  now rewrite update_middle.
Qed.

(** The body of the loop over the text columns (lines 96-112) on the frame
    behind [r] is [normalize_step] on that frame. *)
Definition text_body (r : ref) (dc ex : list string) (col : string) : prog unit :=
  if negb (in_list col ex) then
    s <- column_of r col ;;
    assign r col (astype_str s) ;;;
    s <- column_of r col ;;
    assign r col (str_strip s) ;;;
    (if negb (in_list col dc) then
       s <- column_of r col ;;
       assign r col (str_lower s)
     else ret tt) ;;;
    s <- column_of r col ;;
    assign r col (replace (CStr "nan") CNaN s) ;;;
    s <- column_of r col ;;
    assign r col (replace (CStr "none") CNaN s)
  else ret tt.

Lemma run_text_body (r : ref) (dc ex : list string) (col : string) (w : world) :
  r < length (heap w) ->
  text_body r dc ex col w =
  (tt, mkWorld
         (update r (normalize_step dc ex (nth r (heap w) empty_frame) col) (heap w))
         (stdout w)).
Proof.
  destruct w as [h out]. cbn [heap stdout]. intros Hr.
  unfold text_body, normalize_step, clean_text.
  destruct (negb (in_list col ex));
    [|unfold ret; now rewrite update_nth_id].
  unfold column_of, deref, assign, ret. unfold bind. cbn [heap stdout].
  destruct (in_list col dc); cbn [negb heap stdout];
    repeat (rewrite ?nth_update_same by exact Hr;
            rewrite ?update_update, ?getitem_setitem, ?setitem_setitem);
    reflexivity.
Qed.

Lemma length_update (r : ref) (d : DataFrame) (h : list DataFrame) :
  length (update r d h) = length h.
Proof.
  revert r. induction h as [|d0 h IH]; intros [|r]; simpl; try reflexivity.
  now rewrite IH.
Qed.

Lemma run_text_loop (r : ref) (dc ex : list string) (ns : list string) :
  forall w, r < length (heap w) ->
  for_each ns (text_body r dc ex) w =
  (tt, mkWorld
         (update r (fold_left (normalize_step dc ex) ns (nth r (heap w) empty_frame))
            (heap w))
         (stdout w)).
Proof.
  induction ns as [|a ns IH]; intros [h out] Hr;
    cbn [for_each fold_left heap stdout] in *.
  - unfold ret. now rewrite update_nth_id.
  - unfold bind at 1. rewrite run_text_body by exact Hr. cbn [heap stdout].
    rewrite IH by (cbn [heap]; now rewrite length_update).
    cbn [heap stdout]. now rewrite nth_update_same, update_update.
Qed.

(** A run of [clean_dataframe] through the store: five frames are added,
    the copy, the working frame, and the results of [dropna],
    [drop_duplicates] and [reset_index]; the last is the one returned, and it
    is the frame [clean_dataframe] computes. *)
Lemma run_clean_dataframe_imp (df : ref) (ex : list string) (w : world) :
  let d := nth df (heap w) empty_frame in
  let n := normalized_frame d ex in
  clean_dataframe_imp to_datetime_scalar to_datetime_error to_datetime_value
    df ex w =
  ((length (heap w) + 4, snd (fst (clean_dataframe' d ex))),
   mkWorld
     (heap w ++ [d; n; dropna_all n; drop_duplicates (dropna_all n);
                 fst (fst (clean_dataframe' d ex))])
     (stdout w ++ snd (clean_dataframe' d ex))).
Proof.
  destruct w as [h out]. cbn [heap stdout].
  set (d := nth df h empty_frame). set (n := normalized_frame d ex).
  rewrite clean_dataframe_stages. cbn [fst snd]. fold n.
  unfold clean_dataframe_imp, copy.
  unfold bind at 1. unfold bind at 1. unfold deref at 1. unfold alloc at 1.
  cbn [heap stdout]. fold d.
  unfold bind at 1. unfold deref at 1. cbn [heap stdout].
  rewrite nth_middle. unfold shape.
  unfold bind at 1. rewrite run_convert_to_datetime_imp. cbn [heap stdout].
  rewrite nth_middle. fold (converted_frame d).
  unfold bind at 1. unfold deref at 1. cbn [heap stdout].
  assert (Hlen : length (h ++ [d]) = length h + 1)
    by (rewrite length_app; reflexivity).
  rewrite Hlen.
  assert (Hnth1 : nth (length h + 1) ((h ++ [d]) ++ [converted_frame d]) empty_frame
                  = converted_frame d).
  { rewrite <- app_assoc. simpl. now rewrite nth_app_plus. }
  rewrite Hnth1.
  unfold bind at 1.
  change (for_each (select_dtypes_object (converted_frame d)) _)
    with (for_each (select_dtypes_object (converted_frame d))
            (text_body (length h + 1) (detect' d) ex)).
  rewrite run_text_loop
    by (cbn [heap]; rewrite !length_app; simpl; lia).
  cbn [heap stdout]. rewrite Hnth1.
  fold (normalize_text (converted_frame d) (detect' d) ex).
  fold (normalized_frame d ex). fold n.
  assert (Hupd : update (length h + 1) n ((h ++ [d]) ++ [converted_frame d])
                 = h ++ [d; n]).
  { rewrite <- app_assoc. simpl. now rewrite update_app. }
  rewrite Hupd.
  unfold bind, deref, alloc, ret. cbn [heap stdout].
  assert (N1 : nth (length h + 1) (h ++ [d; n]) empty_frame = n)
    by (now rewrite nth_app_plus).
  rewrite N1. repeat rewrite nth_middle.
  rewrite <- !app_assoc. cbn [app].
  rewrite length_app. cbn [length].
  unfold reduce_rows. rewrite len_reset_index. reflexivity.
Qed.

(** [C9] A run of [clean_dataframe] on the frame behind a reference leaves
    that frame, and every frame the store had, as it was; the frame it
    returns is a new one, and holds what [clean_dataframe] computes. *)
Theorem clean_dataframe_keeps_input (df : ref) (ex : list string) (w : world) :
  df < length (heap w) ->
  let run := clean_dataframe_imp to_datetime_scalar to_datetime_error
               to_datetime_value df ex w in
  let out := fst (fst run) in
  let w' := snd run in
  let d := nth df (heap w) empty_frame in
  nth df (heap w') empty_frame = d
  /\ firstn (length (heap w)) (heap w') = heap w
  /\ out <> df
  /\ length (heap w) <= out < length (heap w')
  /\ nth out (heap w') empty_frame = fst (fst (clean_dataframe' d ex)).
Proof.
  intros Hdf run out w' d. subst run out w' d.
  rewrite run_clean_dataframe_imp. cbn [fst snd heap].
  split; [|split; [|split; [|split]]].
  - now rewrite app_nth1.
  - rewrite firstn_app, Nat.sub_diag, firstn_all. simpl. apply app_nil_r.
  - lia.
  - rewrite length_app. simpl. lia.
  - now rewrite nth_app_plus.
Qed.

End CleanerFacts.

(* ================================================================== *)
(** * The program on concrete frames *)

(** The frame of the scenario of the specification: a date column, a name
    column and a quantity; the second row repeats the first up to case and
    white space, the third is empty. *)
Definition orders : DataFrame :=
  mkFrame [0; 1; 2]%Z
    [("OrderDate", mkSeries object [CStr "2023-01-05"; CStr "2023-01-05"; CNone]);
     ("Name", mkSeries object [CStr " Alice "; CStr "alice"; CNone]);
     ("Qty", mkSeries float64 [CFloat "5.0"; CFloat "5.0"; CNaN])].

(** One date among four texts: one call of [pd.to_datetime], accepted. *)
Definition mixed : DataFrame :=
  mkFrame [0; 1; 2; 3]%Z
    [("x", mkSeries object [CStr "2023-01-05"; CStr "a"; CStr "b"; CStr "c"])].

(** A date column whose texts carry different UTC offsets, so that its
    conversion raises and the column stays text. *)
Definition zoned : DataFrame :=
  mkFrame [0; 1]%Z
    [("Date", mkSeries object [CStr " 2023-01-05 10:00+01:00 ";
                               CStr "2023-01-06 10:00+02:00"]);
     ("ID", mkSeries object [CStr "Ab1"; CStr "cD2"])].

Definition zoned_dates : list string := detect_date_columns toy_scalar zoned.


(** A text column with the sentinels in several casings. *)
Definition sentinels : DataFrame :=
  mkFrame [0; 1; 2; 3]%Z
    [("status", mkSeries object [CStr "NaN"; CStr "None"; CStr "none"; CStr " Ok "])].

Example orders_cleaned :
  clean_dataframe toy_scalar toy_error toy_value orders [] =
  (mkFrame [0]%Z
     [("OrderDate", mkSeries datetime64 [CTime "2023-01-05 00:00:00"]);
      ("Name", mkSeries object [CStr "alice"]);
      ("Qty", mkSeries float64 [CFloat "5.0"])],
   mkMetrics 3 3 ["OrderDate"] ["Name"] 1 1 1 3 2,
   []).
Proof. vm_compute. reflexivity. Qed.

Example sentinels_cleaned :
  getitem (normalize_text sentinels [] []) "status"
  = mkSeries object [CNaN; CNaN; CNaN; CStr "ok"].
Proof. vm_compute. reflexivity. Qed.

Example excluded_untouched :
  getitem (normalize_text zoned [] ["ID"]) "ID" = getitem zoned "ID".
Proof. vm_compute. reflexivity. Qed.

Example threshold_boundary :
  ratio_exceeds 3 10 = false /\ ratio_exceeds 6 20 = false
  /\ ratio_exceeds 7 20 = true /\ ratio_exceeds 1 3 = true.
Proof. vm_compute. repeat split; reflexivity. Qed.

(** Ten sampled texts of which three (30%) and four (40%) are dates. *)
Definition three_of_ten : DataFrame :=
  mkFrame (map Z.of_nat (seq 0 10))
    [("x", mkSeries object
             (map CStr ["2023-01-01"; "2023-01-02"; "2023-01-03";
                        "a"; "b"; "c"; "d"; "e"; "f"; "g"]))].

Definition four_of_ten : DataFrame :=
  mkFrame (map Z.of_nat (seq 0 10))
    [("x", mkSeries object
             (map CStr ["2023-01-01"; "2023-01-02"; "2023-01-03"; "2023-01-04";
                        "b"; "c"; "d"; "e"; "f"; "g"]))].

Example boundary_not_date :
  detect_date_columns toy_scalar three_of_ten = []
  /\ detect_date_columns toy_scalar four_of_ten = ["x"].
Proof. vm_compute. split; reflexivity. Qed.

Example zoned_warning :
  snd (convert_to_datetime toy_error toy_value zoned zoned_dates)
  = [("Date", "Mixed timezones detected")].
Proof. vm_compute. reflexivity. Qed.

(** ** The two statements of the specification the program does not meet *)

(** [C1] as the specification has it: the accepted calls are compared with
    the calls made. *)
Definition claimed_content_rule (to_datetime_scalar : string -> bool)
  (df : DataFrame) (col : string) : Prop :=
  In col (detect_date_columns to_datetime_scalar df)
  <-> 3 * length (attempted_samples df col)
      < 10 * length (parsed_samples to_datetime_scalar df col).

(** In [mixed] the one call made is accepted, 100% of the calls, and the
    column is not returned: the program compares with the four sampled
    values, 25%. *)
Lemma content_rule_counterexample :
  In "x" (columns mixed) /\ name_is_date "x" = false
  /\ sample_values mixed "x" <> []
  /\ ~ claimed_content_rule toy_scalar mixed "x".
Proof.
  split; [simpl; tauto|]. split; [reflexivity|]. split; [discriminate|].
  intros [_ H].
  assert (Hlt : 3 * length (attempted_samples mixed "x")
                < 10 * length (parsed_samples toy_scalar mixed "x"))
    by (vm_compute; lia).
  apply H in Hlt. vm_compute in Hlt. exact Hlt.
Qed.



(** ** The theorems at concrete frames *)

Lemma NoDup_orders : NoDup (columns orders).
Proof.
  repeat constructor; simpl; intuition discriminate.
Defined.

Lemma name_match_is_date_witness :
  In "OrderDate" (columns orders) /\ name_is_date "OrderDate" = true
  /\ (In "OrderDate" (detect_date_columns toy_scalar orders)
      /\ forall s, ~ In ("OrderDate", s)
                     (snd (detect_date_columns_traced toy_scalar orders))).
Proof.
  assert (H1 : In "OrderDate" (columns orders)) by (simpl; tauto).
  assert (H2 : name_is_date "OrderDate" = true) by reflexivity.
  split; [exact H1|]. split; [exact H2|].
  exact (name_match_is_date toy_scalar orders "OrderDate" H1 H2).
Defined.

Lemma content_pass_rule_witness :
  In "x" (columns mixed) /\ name_is_date "x" = false
  /\ sample_values mixed "x" <> []
  /\ ((forall s, In ("x", s) (snd (detect_date_columns_traced toy_scalar mixed))
                 <-> In s (map py_str (attempted_samples mixed "x")))
      /\ (forall s, In s (map py_str (attempted_samples mixed "x")) ->
            (exists sep, In sep separators /\ PyStr.contains sep s = true)
            /\ PyStr.any_char PyStr.isdigit s = true)
      /\ (In "x" (detect_date_columns toy_scalar mixed)
          <-> 3 * length (eligible_samples mixed "x")
              < 10 * length (parsed_samples toy_scalar mixed "x"))
      /\ (attempted_samples mixed "x" = [] ->
          ~ In "x" (detect_date_columns toy_scalar mixed))).
Proof.
  assert (H1 : In "x" (columns mixed)) by (simpl; tauto).
  assert (H2 : name_is_date "x" = false) by reflexivity.
  assert (H3 : sample_values mixed "x" <> []) by discriminate.
  split; [exact H1|]. split; [exact H2|]. split; [exact H3|].
  exact (content_pass_rule toy_scalar mixed "x" H1 H2 H3).
Defined.


Lemma sentinels_become_missing_witness :
  NoDup (columns sentinels) /\ In "status" (select_dtypes_object sentinels)
  /\ ~ In "status" [] /\ ~ In "status" []
  /\ (length (s_values (getitem (normalize_text sentinels [] []) "status"))
      = length (s_values (getitem sentinels "status"))
      /\ (forall i v, nth_error (s_values (getitem sentinels "status")) i = Some v ->
            let folded := PyStr.lower (PyStr.strip (py_str v)) in
            nth_error (s_values (getitem (normalize_text sentinels [] []) "status")) i =
            Some (if String.eqb folded "nan" || String.eqb folded "none"
                  then CNaN else CStr folded))
      /\ ~ In (CStr "nan") (s_values (getitem (normalize_text sentinels [] []) "status"))
      /\ ~ In (CStr "none") (s_values (getitem (normalize_text sentinels [] []) "status"))).
Proof.
  assert (H1 : NoDup (columns sentinels))
    by (repeat constructor; simpl; tauto).
  assert (H2 : In "status" (select_dtypes_object sentinels)) by (simpl; tauto).
  assert (H3 : ~ In "status" (@nil string)) by (simpl; tauto).
  split; [exact H1|]. split; [exact H2|]. split; [exact H3|]. split; [exact H3|].
  exact (sentinels_become_missing sentinels [] [] "status" H1 H2 H3 H3).
Defined.

Lemma normalize_text_idempotent_witness :
  NoDup (columns orders)
  /\ normalize_text (normalize_text orders ["OrderDate"] []) ["OrderDate"] []
     = normalize_text orders ["OrderDate"] [].
Proof.
  split; [exact NoDup_orders|].
  exact (normalize_text_idempotent orders ["OrderDate"] [] NoDup_orders).
Defined.


Lemma clean_dataframe_keeps_input_witness :
  0 < length (heap (mkWorld [orders] []))
  /\ nth 0 (heap (snd (clean_dataframe_imp toy_scalar toy_error toy_value 0 []
                         (mkWorld [orders] [])))) empty_frame
     = orders.
Proof.
  assert (H : 0 < length (heap (mkWorld [orders] []))) by (simpl; lia).
  split; [exact H|].
  exact (proj1 (clean_dataframe_keeps_input toy_scalar toy_error toy_value
                  0 [] (mkWorld [orders] []) H)).
Defined.

Lemma clean_dataframe_layout_witness :
  NoDup (columns orders)
  /\ columns (fst (fst (clean_dataframe toy_scalar toy_error toy_value orders [])))
     = columns orders.
Proof.
  split; [exact NoDup_orders|].
  exact (proj1 (clean_dataframe_layout toy_scalar toy_error toy_value orders []
                  NoDup_orders)).
Defined.

(* ================================================================== *)
(** * Further properties of [detect_date_columns] *)

Section DetectorFacts.

Variable to_datetime_scalar : string -> bool.

(** The test of the content pass on one column (lines 25-27 and 50). *)
Definition content_is_date (df : DataFrame) (col : string) : bool :=
  negb (length (sample_values df col) =? 0)
  && significant (inspect_column to_datetime_scalar df col).

Lemma content_fold_list (df : DataFrame) (cols : list string) :
  forall dc calls, NoDup cols ->
  fst (fold_left (content_step to_datetime_scalar df) cols (dc, calls))
  = dc ++ filter (fun c => negb (in_list c dc) && content_is_date df c) cols.
Proof.
  induction cols as [|a cols IH]; intros dc calls Hnd; simpl;
    [now rewrite app_nil_r|].
  inversion Hnd as [|? ? Hnot Hnd']; subst.
  unfold content_is_date at 1.
  destruct (in_list a dc) eqn:Ein; simpl; [now apply IH|].
  destruct (length (sample_values df a) =? 0); simpl; [now apply IH|].
  destruct (significant (inspect_column to_datetime_scalar df a));
    [|now apply IH].
  rewrite IH by exact Hnd'. rewrite <- app_assoc. simpl. f_equal. f_equal.
  apply filter_ext_in. intros c Hc. f_equal. f_equal.
  unfold in_list. rewrite existsb_app. simpl. rewrite orb_false_r.
  destruct (String.eqb c a) eqn:E; [|apply orb_false_r].
  apply String.eqb_eq in E. subst. contradiction.
Qed.

(** The labels [detect_date_columns] returns, in order: the columns taken by
    name, as they stand in the frame, then the columns taken by content, as
    they stand in the frame.  So a label of the frame is returned at most
    once, and nothing else is returned. *)
Theorem detect_date_columns_order (df : DataFrame) :
  NoDup (columns df) ->
  detect_date_columns to_datetime_scalar df
  = filter name_is_date (columns df)
    ++ filter (fun c => negb (name_is_date c) && content_is_date df c) (columns df).
Proof.
  intros Hnd. unfold detect_date_columns, detect_date_columns_traced.
  rewrite content_fold_list by exact Hnd. rewrite name_pass_filter. f_equal.
  apply filter_ext_in. intros c Hc. f_equal. f_equal.
  destruct (name_is_date c) eqn:E.
  - apply in_list_In, filter_In. tauto.
  - apply in_list_not_In. rewrite filter_In. rewrite E. intuition discriminate.
Qed.

Lemma fold_left_ext_in {A B : Type} (f g : A -> B -> A) (l : list B) :
  (forall a x, In x l -> f a x = g a x) ->
  forall a, fold_left f l a = fold_left g l a.
Proof.
  induction l as [|x l IH]; intros H a; simpl; [reflexivity|].
  rewrite H by now left. apply IH. intros a' y Hy. apply H. now right.
Qed.

(** Only the first 20 values that are not missing count: two frames with
    the same labels whose columns agree on them have the same date columns,
    found with the same calls of [pd.to_datetime]. *)
Theorem detect_date_columns_sampling (df1 df2 : DataFrame) :
  columns df1 = columns df2 ->
  (forall col, In col (columns df1) ->
     firstn 20 (filter notna (s_values (getitem df1 col)))
     = firstn 20 (filter notna (s_values (getitem df2 col)))) ->
  detect_date_columns_traced to_datetime_scalar df1
  = detect_date_columns_traced to_datetime_scalar df2.
Proof.
  intros Hc Hs. unfold detect_date_columns_traced, name_pass.
  rewrite <- Hc. apply fold_left_ext_in. intros [dc calls] col Hcol.
  assert (E : sample_values df1 col = sample_values df2 col)
    by (apply Hs, Hcol).
  unfold content_step, inspect_column. now rewrite E.
Qed.

End DetectorFacts.

(* ================================================================== *)
(** * The text of an integer *)

Module IntText.
Import PyStr.

(** [all(p(char) for char in s)] *)
Fixpoint every_char (p : ascii -> bool) (s : string) : bool :=
  match s with
  | EmptyString => true
  | String c s' => p c && every_char p s'
  end.

Lemma digits_of_uint (d : Decimal.uint) :
  every_char isdigit (NilEmpty.string_of_uint d) = true.
Proof. induction d; simpl; try reflexivity; exact IHd. Qed.

Lemma digits_of_uint_nilzero (d : Decimal.uint) :
  every_char isdigit (NilZero.string_of_uint d) = true.
Proof. destruct d; try reflexivity; apply (digits_of_uint (_ d)). Qed.

(** [str(z)] is digits, after a minus sign when [z] is negative. *)
Lemma str_int_nonneg (z : Z) :
  (0 <= z)%Z -> every_char isdigit (str_int z) = true.
Proof.
  intros Hz. unfold str_int. destruct z as [|p|p]; simpl.
  - reflexivity.
  - apply digits_of_uint_nilzero.
  - lia.
Qed.

Lemma str_int_negative (p : positive) :
  str_int (Zneg p) = String "-" (NilZero.string_of_uint (Pos.to_uint p)).
Proof. reflexivity. Qed.

Lemma contains_char (c : ascii) (s : string) :
  contains (String c EmptyString) s = any_char (Ascii.eqb c) s.
Proof.
  induction s as [|a s IH]; [reflexivity|].
  cbn [contains any_char]. rewrite IH. f_equal. simpl.
  destruct (ascii_dec c a) as [->|Hne].
  - rewrite Ascii.eqb_refl. now destruct s.
  - symmetry. now apply Ascii.eqb_neq.
Qed.

Lemma any_char_none (p q : ascii -> bool) (s : string) :
  (forall c, p c = true -> q c = false) ->
  every_char p s = true -> any_char q s = false.
Proof.
  intros Hpq. induction s as [|a s IH]; simpl; [reflexivity|].
  intros H. apply andb_true_iff in H. destruct H as [Ha Hs].
  now rewrite (Hpq a Ha), IH.
Qed.

Lemma digit_is_no_separator (c : ascii) :
  isdigit c = true ->
  Ascii.eqb "-" c = false /\ Ascii.eqb "/" c = false
  /\ Ascii.eqb ":" c = false /\ Ascii.eqb " " c = false.
Proof.
  destruct c as [[] [] [] [] [] [] [] []]; vm_compute; intros H;
    try discriminate H; repeat split.
Qed.

(** A text made of digits has no separator: line 41 is false for it. *)
Lemma digits_do_not_look_like_date (s : string) :
  every_char isdigit s = true -> looks_like_date s = false.
Proof.
  intros H. unfold looks_like_date, separators. simpl.
  rewrite !contains_char.
  rewrite (any_char_none isdigit (Ascii.eqb "-") s), (any_char_none isdigit (Ascii.eqb "/") s),
    (any_char_none isdigit (Ascii.eqb ":") s), (any_char_none isdigit (Ascii.eqb " ") s);
    try exact H; try reflexivity;
    intros c Hc; now apply digit_is_no_separator in Hc.
Qed.

End IntText.

Section DetectorOnIntegers.

Variable to_datetime_scalar : string -> bool.

(** A column that the name pass does not take and whose cells are missing
    or integers that are not negative is never a date column: the text of
    such an integer has no separator, so [pd.to_datetime] is not even
    called. *)
Theorem counts_are_not_dates (df : DataFrame) (col : string) :
  name_is_date col = false ->
  (forall v, In v (s_values (getitem df col)) ->
     isna v = true \/ exists z, v = CInt z /\ (0 <= z)%Z) ->
  ~ In col (detect_date_columns to_datetime_scalar df)
  /\ forall s, ~ In (col, s) (snd (detect_date_columns_traced to_datetime_scalar df)).
Proof.
  intros Hname Hcells.
  assert (Hnone : attempted_samples df col = []).
  { unfold attempted_samples, eligible_samples.
    apply length_zero_iff_nil.
    assert (Hall : forall v, In v (filter is_str_int_float (sample_values df col)) ->
                     looks_like_date (py_str v) = false).
    { intros v Hv. apply filter_In in Hv. destruct Hv as [Hv Hk].
      unfold sample_values, head, dropna in Hv. simpl in Hv.
      apply (In_nth _ _ CNaN) in Hv. destruct Hv as [n [Hn Hv]].
      assert (Hin : In v (filter notna (s_values (getitem df col)))).
      { rewrite <- (firstn_skipn 20 (filter notna (s_values (getitem df col)))).
        apply in_or_app. left. rewrite <- Hv. now apply nth_In. }
      apply filter_In in Hin. destruct Hin as [Hin Hna].
      destruct (Hcells v Hin) as [Hm|[z [-> Hz]]].
      - unfold notna in Hna. rewrite Hm in Hna. discriminate.
      - apply IntText.digits_do_not_look_like_date.
        now apply IntText.str_int_nonneg. }
    induction (filter is_str_int_float (sample_values df col)) as [|v l IH];
      simpl; [reflexivity|].
    rewrite (Hall v) by now left. apply IH. intros v' Hv'. apply Hall. now right. }
  split.
  - rewrite detect_date_columns_spec, significant_counts. rewrite Hname.
    unfold parsed_samples. rewrite Hnone. simpl. intros [_ [H|[_ H]]];
      [discriminate | lia].
  - intros s. unfold detect_date_columns_traced.
    rewrite content_fold_calls. simpl. rewrite inspect_column_counts. simpl.
    rewrite Hnone. simpl. tauto.
Qed.

End DetectorOnIntegers.

(* ================================================================== *)
(** * Further properties of the text normaliser *)

Lemma lstrip_blank (s : string) :
  IntText.every_char PyStr.isspace s = true -> PyStr.lstrip s = EmptyString.
Proof.
  induction s as [|c s IH]; simpl; [reflexivity|].
  intros H. apply andb_true_iff in H. destruct H as [Hc Hs].
  rewrite Hc. now apply IH.
Qed.

Lemma strip_blank (s : string) :
  IntText.every_char PyStr.isspace s = true -> PyStr.strip s = EmptyString.
Proof. intros H. unfold PyStr.strip. now rewrite lstrip_blank. Qed.


Lemma normalized_text_column (df : DataFrame) (dc ex : list string) (col : string) :
  NoDup (columns df) -> In col (select_dtypes_object df) -> ~ In col ex ->
  getitem (normalize_text df dc ex) col
  = mkSeries object (map (clean_cell (in_list col dc)) (s_values (getitem df col))).
Proof.
  intros Hnd Hobj Hex. rewrite normalize_text_as_map by exact Hnd.
  rewrite getitem_map_columns by (now apply select_dtypes_object_columns).
  unfold normalize_column. rewrite (object_column_of_frame df col Hnd Hobj).
  apply in_list_not_In in Hex. rewrite Hex. cbn [negb andb].
  apply clean_text_cells.
Qed.


(** A text of white space only becomes the empty text, which is not a
    missing marker: the text normaliser does not make blank cells missing. *)
Theorem blank_text_stays (df : DataFrame) (dc ex : list string) (col : string)
  (i : nat) (s : string) :
  NoDup (columns df) -> In col (select_dtypes_object df) -> ~ In col ex ->
  nth_error (s_values (getitem df col)) i = Some (CStr s) ->
  IntText.every_char PyStr.isspace s = true ->
  nth_error (s_values (getitem (normalize_text df dc ex) col)) i
  = Some (CStr EmptyString)
  /\ isna (CStr EmptyString) = false.
Proof.
  intros Hnd Hobj Hex Hi Hs. split; [|reflexivity].
  rewrite normalized_text_column by assumption. simpl.
  rewrite nth_error_map, Hi. simpl. f_equal.
  unfold clean_cell. simpl. rewrite (strip_blank s Hs).
  now destruct (in_list col dc).
Qed.

(* ================================================================== *)
(** * Further properties of the row reducer *)

(** A frame is rectangular when every column has one cell for each row
    label. *)
Definition rectangular (df : DataFrame) : Prop :=
  forall c, In c (df_columns df) -> length (s_values (snd c)) = len df.

Lemma rectangular_take (positions : list nat) (df : DataFrame) :
  rectangular (take positions df).
Proof.
  intros c Hc. rewrite len_take. unfold take in Hc. simpl in Hc.
  apply in_map_iff in Hc. destruct Hc as [c0 [E _]]. subst c. simpl.
  apply length_map.
Qed.

Lemma rectangular_drop_duplicates (df : DataFrame) :
  rectangular df -> rectangular (drop_duplicates df).
Proof.
  intros H. unfold drop_duplicates. destruct (empty df); [exact H|].
  apply rectangular_take.
Qed.

Lemma rectangular_reduce_rows (df : DataFrame) : rectangular (reduce_rows df).
Proof.
  intros c Hc. unfold reduce_rows in *. rewrite len_reset_index.
  apply (rectangular_drop_duplicates (dropna_all df));
    [apply rectangular_take | exact Hc].
Qed.

Lemma take_all (df : DataFrame) :
  rectangular df -> take (seq 0 (len df)) df = df.
Proof.
  intros Hr. destruct df as [idx cs]. unfold take, len in *. simpl in *.
  f_equal; [apply map_nth_positions|].
  unfold rectangular, len in Hr. simpl in Hr.
  induction cs as [|[name [t vs]] cs IH]; simpl; [reflexivity|].
  f_equal.
  - unfold take_series. simpl. f_equal. f_equal.
    rewrite <- (Hr (name, mkSeries t vs)) by now left.
    apply map_nth_positions.
  - apply IH. intros c Hc. apply Hr. now right.
Qed.

Lemma filter_all {A : Type} (p : A -> bool) (l : list A) :
  length (filter p l) = length l -> filter p l = l.
Proof.
  induction l as [|x l IH]; simpl; [reflexivity|].
  destruct (p x); simpl; intros H.
  - f_equal. apply IH. lia.
  - pose proof (filter_length_le' p l). lia.
Qed.

Lemma filter_all_true {A : Type} (p : A -> bool) (l : list A) :
  (forall x, In x l -> p x = true) -> filter p l = l.
Proof.
  induction l as [|x l IH]; simpl; intros H; [reflexivity|].
  rewrite (H x) by now left. f_equal. apply IH. intros y Hy. apply H. now right.
Qed.

Lemma keep_first_from_fixed (l : list (list cell)) :
  forall kept,
  (forall x, In x l -> existsb (fun k => same_row k x) kept = false) ->
  ForallOrdPairs (fun a b => same_row a b = false) l ->
  keep_first_from kept l = l.
Proof.
  induction l as [|r l IH]; intros kept Hfresh Hd; simpl; [reflexivity|].
  rewrite (Hfresh r) by now left. f_equal.
  inversion Hd as [|? ? Hr Hd']; subst.
  apply IH; [|exact Hd'].
  intros x Hx. rewrite existsb_app. simpl. rewrite orb_false_r.
  rewrite (Hfresh x) by now right.
  rewrite Forall_forall in Hr. now rewrite (Hr x Hx).
Qed.

Lemma spec_reduce_rows_idem (rs : list (list cell)) :
  spec_reduce_rows (spec_reduce_rows rs) = spec_reduce_rows rs.
Proof.
  unfold spec_reduce_rows at 1.
  rewrite filter_all_true.
  - apply keep_first_from_fixed; [reflexivity|].
    apply keep_first_from_distinct.
  - intros r Hr. unfold spec_reduce_rows in Hr.
    apply (subseq_In _ _ r (subseq_keep_first_from _ [])) in Hr.
    apply filter_In in Hr. tauto.
Qed.

Lemma take_of_same_rows (p : nat -> bool) (df : DataFrame) :
  rectangular df ->
  length (rows (take (filter p (seq 0 (len df))) df)) = length (rows df) ->
  take (filter p (seq 0 (len df))) df = df.
Proof.
  intros Hr Hl. rewrite !length_rows, len_take in Hl.
  rewrite filter_all by (now rewrite length_seq).
  now apply take_all.
Qed.

Lemma reduce_rows_fixed (df : DataFrame) :
  reduce_rows (reduce_rows df) = reduce_rows df.
Proof.
  set (d := reduce_rows df).
  assert (Hrect : rectangular d) by apply rectangular_reduce_rows.
  assert (Hrows : spec_reduce_rows (rows d) = rows d).
  { subst d. rewrite rows_reduce_rows. apply spec_reduce_rows_idem. }
  assert (Hkeep : filter (fun r => negb (all_missing r)) (rows d) = rows d).
  { apply filter_all_true. intros r Hr. rewrite <- Hrows in Hr.
    unfold spec_reduce_rows in Hr.
    apply (subseq_In _ _ r (subseq_keep_first_from _ [])) in Hr.
    apply filter_In in Hr. tauto. }
  assert (H1 : dropna_all d = d).
  { unfold dropna_all. apply take_of_same_rows; [exact Hrect|].
    fold (dropna_all d). now rewrite rows_dropna_all, Hkeep. }
  assert (H2 : drop_duplicates d = d).
  { destruct (empty d) eqn:He; [unfold drop_duplicates; now rewrite He|].
    assert (Hk : keep_first (rows d) = rows d).
    { unfold spec_reduce_rows in Hrows. now rewrite Hkeep in Hrows. }
    pose proof (rows_drop_duplicates d He) as Hdd.
    unfold drop_duplicates in *. rewrite He in *.
    apply take_of_same_rows; [exact Hrect|]. now rewrite Hdd, Hk. }
  unfold reduce_rows at 1. rewrite H1, H2.
  subst d. unfold reduce_rows.
  set (x := drop_duplicates (dropna_all df)).
  unfold reset_index at 1. rewrite len_reset_index. reflexivity.
Qed.

(** The row reducer changes nothing in a frame it has reduced: no row is
    removed and the index stays as it is. *)
Theorem reduce_rows_idempotent (df : DataFrame) :
  reduce_rows (reduce_rows df) = reduce_rows df.
Proof. apply reduce_rows_fixed. Qed.

Section OutputShape.

Variable to_datetime_scalar : string -> bool.
Variable to_datetime_error : list cell -> option string.
Variable to_datetime_value : list cell -> cell -> option string.

(** The frame [clean_dataframe] returns is rectangular, whatever the frame
    it is given, and the row reducer would change nothing in it. *)
Theorem clean_dataframe_rectangular (df : DataFrame) (ex : list string) :
  let out := fst (fst (clean_dataframe to_datetime_scalar to_datetime_error
                         to_datetime_value df ex)) in
  rectangular out /\ reduce_rows out = out.
Proof.
  rewrite clean_dataframe_stages. simpl. split.
  - apply rectangular_reduce_rows.
  - apply reduce_rows_fixed.
Qed.

End OutputShape.

(* ================================================================== *)
(** * Further properties of [convert_to_datetime] and [clean_dataframe] *)

Section PipelineFacts.

Variable to_datetime_scalar : string -> bool.
Variable to_datetime_error : list cell -> option string.
Variable to_datetime_value : list cell -> cell -> option string.

Local Abbreviation detect'' := (detect_date_columns to_datetime_scalar).
Local Abbreviation clean'' :=
  (clean_dataframe to_datetime_scalar to_datetime_error to_datetime_value).
Local Abbreviation normalized'' :=
  (normalized_frame to_datetime_scalar to_datetime_error to_datetime_value).

(** [convert_to_datetime] works on a copy (line 59): the frame it is given
    and every other frame of the store stay as they are, the frame it
    returns is a new one, and the warnings are printed in the order of the
    listed columns. *)
Theorem convert_to_datetime_keeps_input (df : ref) (dc : list string) (w : world) :
  let run := convert_to_datetime_imp to_datetime_error to_datetime_value df dc w in
  let d := nth df (heap w) empty_frame in
  firstn (length (heap w)) (heap (snd run)) = heap w
  /\ fst run = length (heap w)
  /\ nth (fst run) (heap (snd run)) empty_frame
     = fst (convert_to_datetime to_datetime_error to_datetime_value d dc)
  /\ stdout (snd run)
     = stdout w ++ snd (convert_to_datetime to_datetime_error to_datetime_value d dc).
Proof.
  rewrite run_convert_to_datetime_imp. cbn [fst snd heap stdout].
  split; [|split; [|split]]; try reflexivity.
  - rewrite firstn_app, Nat.sub_diag, firstn_all. simpl. apply app_nil_r.
  - apply nth_middle.
Qed.


(** The counts of a run, on the frame as it is after line 112: the rows
    removed as empty are the rows whose cells are all missing, the rows
    removed as duplicates are the other rows less the first occurrences,
    and the number of columns does not change. *)
Theorem metrics_count_rows (df : DataFrame) (ex : list string) :
  let m := snd (fst (clean'' df ex)) in
  let rs := rows (normalized'' df ex) in
  let kept := filter (fun r => negb (all_missing r)) rs in
  all_nan_removed m = Z.of_nat (length (filter all_missing rs))
  /\ (duplicates_removed m
      = Z.of_nat (length kept) - Z.of_nat (length (keep_first kept)))%Z
  /\ final_rows m = Z.of_nat (length (keep_first kept))
  /\ final_cols m = initial_cols m.
Proof.
  rewrite clean_dataframe_stages. cbn [fst snd all_nan_removed
    duplicates_removed final_rows final_cols initial_cols].
  set (n := normalized'' df ex).
  destruct (len_normalized_frame to_datetime_scalar to_datetime_error
              to_datetime_value df ex) as [Hl Hc]. fold n in Hl, Hc.
  assert (Hdrop : len (dropna_all n)
                  = length (filter (fun r => negb (all_missing r)) (rows n)))
    by (now rewrite <- rows_dropna_all, length_rows).
  assert (Hfinal : len (reduce_rows n)
                   = length (keep_first (filter (fun r => negb (all_missing r)) (rows n)))).
  { rewrite <- length_rows, rows_reduce_rows. reflexivity. }
  assert (Hdd : len (drop_duplicates (dropna_all n)) = len (reduce_rows n))
    by (unfold reduce_rows; now rewrite len_reset_index).
  pose proof (count_partition all_missing (rows n)) as Hp.
  rewrite length_rows in Hp.
  split; [|split; [|split]].
  - rewrite <- Hl. lia.
  - rewrite Hdd, Hfinal, Hdrop. reflexivity.
  - now rewrite Hfinal.
  - f_equal. pose proof (columns_reduce_rows n) as Hcols.
    rewrite Hc in Hcols. unfold columns in Hcols.
    apply (f_equal (@length string)) in Hcols.
    now rewrite !length_map in Hcols.
Qed.

End PipelineFacts.

(* ================================================================== *)
(** * The command-line tool

    [list_csv_files], [select_file_interactive], [save_cleaned_data],
    [process_csv_file] and [main].  The files are a list of paths with
    their text; a path without [/] is a file of the working directory.
    [glob] and [os.path.basename] are the POSIX ones.  What is printed is
    left out, and so are the exceptions of writing a file and of a closed
    standard input: the exception modelled is the one of reading, a missing
    file or a text [pd.read_csv] refuses. *)

Definition files : Type := list (string * string).

(** [open(path).read()], and writing [text] to [path]: an existing file is
    replaced in its place, a new one comes last. *)
Fixpoint read_file (path : string) (fs : files) : option string :=
  match fs with
  | [] => None
  | (p, text) :: fs' => if String.eqb path p then Some text else read_file path fs'
  end.

Fixpoint write_file (path text : string) (fs : files) : files :=
  match fs with
  | [] => [(path, text)]
  | (p, old) :: fs' =>
      if String.eqb path p then (p, text) :: fs'
      else (p, old) :: write_file path text fs'
  end.

Definition has_slash (s : string) : bool := PyStr.any_char (Ascii.eqb "/") s.

(** [os.listdir('.')]: the files of the working directory. *)
Definition listdir (fs : files) : list string :=
  filter (fun p => negb (has_slash p)) (map fst fs).

(** [s.endswith(suffix)] *)
Fixpoint ends_with (suffix s : string) : bool :=
  String.eqb suffix s ||
  match s with
  | EmptyString => false
  | String _ s' => ends_with suffix s'
  end.

Definition is_hidden (name : string) : bool :=
  match name with
  | String c _ => Ascii.eqb c "."
  | EmptyString => false
  end.

(** [glob.glob("*.csv")] on the names of the working directory: the names
    that end in [.csv], hidden names apart, in the order of the directory. *)
Definition glob_csv (names : list string) : list string :=
  filter (fun name => ends_with ".csv" name && negb (is_hidden name)) names.

(** Lines 137-142. *)
Definition list_csv_files (names : list string) : list string := glob_csv names.

(** [int(s)] for a string: white space around, a sign, digits with single
    underscores between them; [None] is [ValueError]. *)
Fixpoint plain_digits (after_digit : bool) (s : string) : option string :=
  match s with
  | EmptyString => if after_digit then Some EmptyString else None
  | String c s' =>
      if PyStr.isdigit c then option_map (String c) (plain_digits true s')
      else if Ascii.eqb c "_" && after_digit then plain_digits false s'
      else None
  end.

Definition unsigned_int (s : string) : option Z :=
  match plain_digits false s with
  | Some ds => option_map Z.of_uint (NilZero.uint_of_string ds)
  | None => None
  end.

Definition py_int (s : string) : option Z :=
  match PyStr.strip s with
  | String "+" r => unsigned_int r
  | String "-" r => option_map Z.opp (unsigned_int r)
  | t => unsigned_int t
  end.

(** Lines 144-168; [typed] is the line [input] returns, read only when
    there is a file to choose. *)
Definition select_file_interactive (names : list string) (typed : string)
  : option string :=
  let csv_files := list_csv_files names in
  if length csv_files =? 0 then None
  else
    match py_int typed with
    | Some choice =>
        if ((1 <=? choice) && (choice <=? Z.of_nat (length csv_files)))%Z
        then nth_error csv_files (Z.to_nat (choice - 1))
        else None
    | None => None
    end.

(** [s.rsplit('.', 1)]: the text before and after the last dot, when there
    is a dot. *)
Fixpoint rsplit_dot (s : string) : option (string * string) :=
  match s with
  | EmptyString => None
  | String c s' =>
      match rsplit_dot s' with
      | Some (before, after) => Some (String c before, after)
      | None => if Ascii.eqb c "." then Some (EmptyString, s') else None
      end
  end.

(** Lines 175-176. *)
Definition base_name (original_filename : string) : string :=
  match rsplit_dot original_filename with
  | Some (before, _) => before
  | None => original_filename
  end.

Definition output_filename (original_filename : string) : string :=
  (base_name original_filename ++ "_cleaned.csv")%string.

(** [os.path.basename(path)]: what follows the last [/]. *)
Fixpoint basename (path : string) : string :=
  match path with
  | EmptyString => EmptyString
  | String c rest =>
      if has_slash rest then basename rest
      else if Ascii.eqb c "/" then rest
      else path
  end.

Section Tool.

Variable to_datetime_scalar : string -> bool.
Variable to_datetime_error : list cell -> option string.
Variable to_datetime_value : list cell -> cell -> option string.

(** [pd.read_csv] on the text of a file ([None]: it raises) and the text
    [df.to_csv(index=False)] writes. *)
Variable read_csv : string -> option DataFrame.
Variable to_csv : DataFrame -> string.

(** Lines 170-181. *)
Definition save_cleaned_data (df : DataFrame) (original_filename : string)
  (fs : files) : string * files :=
  let output := output_filename original_filename in
  (output, write_file output (to_csv df) fs).

(** Lines 183-204; [None] is the pair [(None, None)] of the handler. *)
Definition process_csv_file (file_path : string) (exclude_columns : list string)
  (fs : files) : option (DataFrame * string) * files :=
  match read_file file_path fs with
  | None => (None, fs)
  | Some text =>
      match read_csv text with
      | None => (None, fs)
      | Some df =>
          let df_cleaned :=
            fst (fst (clean_dataframe to_datetime_scalar to_datetime_error
                        to_datetime_value df exclude_columns)) in
          let (output_file, fs') :=
            save_cleaned_data df_cleaned (basename file_path) fs in
          (Some (df_cleaned, output_file), fs')
      end
  end.

(** Lines 206-235. *)
Definition main (typed : string) (fs : files) : files :=
  match select_file_interactive (listdir fs) typed with
  | None => fs
  | Some file_path => snd (process_csv_file file_path [] fs)
  end.

End Tool.

(* ================================================================== *)
(** * Properties of the command-line tool *)

From Stdlib Require DecimalPos DecimalZ.

(** ** Texts *)

Lemma any_char_append (p : ascii -> bool) (a b : string) :
  PyStr.any_char p (a ++ b)%string = PyStr.any_char p a || PyStr.any_char p b.
Proof. induction a as [|c a IH]; simpl; [reflexivity | now rewrite IH, orb_assoc]. Qed.

Lemma append_same_head (a x y : string) :
  (a ++ x)%string = (a ++ y)%string -> x = y.
Proof. induction a as [|c a IH]; simpl; intros H; [exact H | apply IH; now inversion H]. Qed.

Lemma append_length (a b : string) :
  String.length (a ++ b)%string = String.length a + String.length b.
Proof. induction a as [|c a IH]; simpl; [reflexivity | now rewrite IH]. Qed.

Lemma ends_with_split (suffix s : string) :
  ends_with suffix s = true <-> exists pre, s = (pre ++ suffix)%string.
Proof.
  induction s as [|c s IH]; cbn [ends_with].
  - rewrite orb_false_r, String.eqb_eq. split.
    + intros ->. now exists EmptyString.
    + intros [[|c pre] E]; [now subst | discriminate].
  - rewrite orb_true_iff, String.eqb_eq, IH. split.
    + intros [->|[pre ->]]; [now exists EmptyString | now exists (String c pre)].
    + intros [[|c' pre] E]; [left; now subst|].
      right. exists pre. simpl in E. now inversion E.
Qed.

(** ** [rsplit] and the name of the output *)

Definition has_dot (s : string) : bool := PyStr.any_char (Ascii.eqb ".") s.

Lemma rsplit_dot_none (s : string) : rsplit_dot s = None <-> has_dot s = false.
Proof.
  unfold has_dot. induction s as [|c s IH];
    cbn [rsplit_dot PyStr.any_char]; [tauto|].
  destruct (rsplit_dot s) as [[b a]|].
  - split; [discriminate|]. intros H. apply orb_false_iff in H.
    destruct H as [_ H]. apply IH in H. discriminate.
  - rewrite (Ascii.eqb_sym "."%char c).
    destruct (Ascii.eqb c "."); simpl; [split; discriminate|].
    split; [intros _; now apply IH | reflexivity].
Qed.

Lemma rsplit_dot_some (s before after : string) :
  rsplit_dot s = Some (before, after) ->
  s = (before ++ "." ++ after)%string /\ has_dot after = false.
Proof.
  revert before. induction s as [|c s IH]; intros before; simpl; [discriminate|].
  destruct (rsplit_dot s) as [[b a]|] eqn:E.
  - intros H. inversion H; subst. destruct (IH b eq_refl) as [Hs Ha].
    split; [simpl; f_equal; exact Hs | exact Ha].
  - destruct (Ascii.eqb c ".") eqn:Ec; [|discriminate].
    intros H. inversion H; subst. apply Ascii.eqb_eq in Ec. subst c.
    split; [reflexivity | now apply rsplit_dot_none].
Qed.

Lemma rsplit_dot_last (x ext : string) :
  has_dot ext = false ->
  rsplit_dot (x ++ "." ++ ext)%string = Some (x, ext).
Proof.
  intros Hext. induction x as [|c x IH]; simpl.
  - apply rsplit_dot_none in Hext. now rewrite Hext.
  - simpl in IH. now rewrite IH.
Qed.

Lemma output_filename_is_new (original : string) :
  output_filename original <> original.
Proof.
  unfold output_filename, base_name.
  destruct (rsplit_dot original) as [[before after]|] eqn:E.
  - apply rsplit_dot_some in E. destruct E as [E _].
    intros H. rewrite E in H. apply append_same_head in H. discriminate.
  - intros H. apply (f_equal String.length) in H.
    rewrite append_length in H. simpl in H. lia.
Qed.

Lemma has_slash_basename (path : string) : has_slash (basename path) = false.
Proof.
  induction path as [|c rest IH]; cbn [basename]; [reflexivity|].
  destruct (has_slash rest) eqn:E; [exact IH|].
  rewrite (Ascii.eqb_sym c "/"%char).
  destruct (Ascii.eqb "/" c) eqn:Ec; [exact E|].
  unfold has_slash in *. cbn [PyStr.any_char]. now rewrite Ec, E.
Qed.

Lemma basename_plain (path : string) : has_slash path = false -> basename path = path.
Proof.
  destruct path as [|c rest]; [reflexivity|].
  unfold has_slash. cbn [PyStr.any_char basename]. intros H.
  apply orb_false_iff in H. destruct H as [Hc Hr].
  unfold has_slash. rewrite Hr.
  rewrite (Ascii.eqb_sym c "/"%char). now rewrite Hc.
Qed.

Lemma has_slash_output (name : string) :
  has_slash name = false -> has_slash (output_filename name) = false.
Proof.
  intros H. unfold output_filename, has_slash. rewrite any_char_append.
  replace (PyStr.any_char (Ascii.eqb "/") "_cleaned.csv") with false by reflexivity.
  rewrite orb_false_r. unfold base_name.
  destruct (rsplit_dot name) as [[before after]|] eqn:E; [|exact H].
  apply rsplit_dot_some in E. destruct E as [E _].
  unfold has_slash in H. rewrite E, any_char_append in H.
  now apply orb_false_iff in H.
Qed.

(** The file that is written is never the file that is read: its name
    differs from the name it is made from, and also from the path of the
    source, since it has no directory. *)
Theorem output_is_not_the_source (file_path : string) :
  output_filename file_path <> file_path
  /\ output_filename (basename file_path) <> file_path
  /\ has_slash (output_filename (basename file_path)) = false.
Proof.
  split; [apply output_filename_is_new|].
  assert (Hno : has_slash (output_filename (basename file_path)) = false)
    by apply has_slash_output, has_slash_basename.
  split; [|exact Hno].
  destruct (has_slash file_path) eqn:E.
  - intros H. rewrite H in Hno. congruence.
  - rewrite basename_plain by exact E. apply output_filename_is_new.
Qed.

Lemma output_filename_csv (x : string) :
  output_filename (x ++ ".csv")%string = (x ++ "_cleaned.csv")%string.
Proof.
  unfold output_filename, base_name.
  change (x ++ ".csv")%string with (x ++ "." ++ "csv")%string.
  now rewrite rsplit_dot_last.
Qed.

(** The text before the last dot is kept: a name [x.csv] gives
    [x_cleaned.csv], whatever dots [x] has, and in general a name with an
    extension without dot gives the name without it and [_cleaned.csv]. *)
Theorem output_filename_of_extension (x ext : string) :
  has_dot ext = false ->
  output_filename (x ++ "." ++ ext)%string = (x ++ "_cleaned.csv")%string
  /\ output_filename (x ++ ".csv")%string = (x ++ "_cleaned.csv")%string.
Proof.
  intros Hext. split; [|apply output_filename_csv].
  unfold output_filename, base_name. now rewrite rsplit_dot_last.
Qed.

(** A name without a dot keeps all of its text. *)
Lemma output_filename_no_dot (name : string) :
  has_dot name = false -> output_filename name = (name ++ "_cleaned.csv")%string.
Proof.
  intros H. unfold output_filename, base_name.
  apply rsplit_dot_none in H. now rewrite H.
Qed.

(** The output of a file that [list_csv_files] lists is listed too when it
    is there: it ends in [.csv] and is not hidden, and it is another name. *)
Theorem output_is_listed_again (name : string) (names : list string) :
  In name (list_csv_files names) ->
  let out := output_filename name in
  out <> name /\ list_csv_files (out :: names) = out :: list_csv_files names.
Proof.
  intros Hin out. split; [apply output_filename_is_new|].
  unfold list_csv_files, glob_csv in *. apply filter_In in Hin.
  destruct Hin as [_ Hm]. apply andb_true_iff in Hm. destruct Hm as [He Hh].
  apply ends_with_split in He. destruct He as [x Hx].
  assert (Hout : out = (x ++ "_cleaned.csv")%string).
  { subst out name. apply output_filename_csv. }
  assert (H1 : ends_with ".csv" out = true).
  { apply ends_with_split. exists (x ++ "_cleaned")%string. rewrite Hout.
    clear. induction x as [|c x IH]; simpl; [reflexivity | now rewrite IH]. }
  assert (H2 : is_hidden out = false).
  { rewrite Hout. subst name. destruct x as [|c x]; [discriminate Hh|].
    simpl in *. now apply negb_true_iff in Hh. }
  simpl. now rewrite H1, H2.
Qed.

(** ** [int] of a typed line *)

Lemma digit_is_no_space (c : ascii) :
  PyStr.isdigit c = true -> PyStr.isspace c = false.
Proof.
  destruct c as [[] [] [] [] [] [] [] []]; vm_compute; intros H;
    try discriminate H; reflexivity.
Qed.

Lemma rstrip_no_space (s : string) :
  IntText.every_char (fun c => negb (PyStr.isspace c)) s = true ->
  PyStr.rstrip s = s.
Proof.
  induction s as [|c s IH]; simpl; [reflexivity|].
  intros H. apply andb_true_iff in H. destruct H as [Hc Hs].
  rewrite (IH Hs). apply negb_true_iff in Hc. rewrite Hc. now destruct s.
Qed.

Lemma strip_no_space (s : string) :
  IntText.every_char (fun c => negb (PyStr.isspace c)) s = true ->
  PyStr.strip s = s.
Proof.
  intros H. unfold PyStr.strip.
  rewrite PyStrFacts.lstrip_clean; [now apply rstrip_no_space|].
  destruct s as [|c s]; [reflexivity|]. simpl in *.
  now apply andb_true_iff in H.
Qed.

Lemma every_char_weaken (p q : ascii -> bool) (s : string) :
  (forall c, p c = true -> q c = true) ->
  IntText.every_char p s = true -> IntText.every_char q s = true.
Proof.
  intros Hpq. induction s as [|c s IH]; simpl; [reflexivity|].
  intros H. apply andb_true_iff in H. destruct H as [Hc Hs].
  now rewrite (Hpq c Hc), IH.
Qed.

Lemma plain_digits_of_digits (s : string) :
  forall after_digit,
  IntText.every_char PyStr.isdigit s = true -> s <> EmptyString ->
  plain_digits after_digit s = Some s.
Proof.
  induction s as [|c s IH]; intros b H Hne; [congruence|].
  cbn [plain_digits IntText.every_char] in *.
  apply andb_true_iff in H. destruct H as [Hc Hs]. rewrite Hc.
  destruct s as [|c' s]; [reflexivity|].
  now rewrite IH.
Qed.

Lemma unsigned_int_of_uint (d : Decimal.uint) :
  d <> Decimal.Nil ->
  unsigned_int (NilZero.string_of_uint d) = Some (Z.of_uint d).
Proof.
  intros Hd. unfold unsigned_int.
  rewrite plain_digits_of_digits.
  - now rewrite NilZero.usu.
  - apply IntText.digits_of_uint_nilzero.
  - destruct d; simpl; try discriminate; congruence.
Qed.

Lemma py_int_of_digits (s : string) :
  IntText.every_char PyStr.isdigit s = true -> py_int s = unsigned_int s.
Proof.
  intros H. unfold py_int.
  rewrite strip_no_space
    by (apply (every_char_weaken PyStr.isdigit); [|exact H];
        intros c Hc; now rewrite digit_is_no_space).
  destruct s as [|c s]; [reflexivity|].
  simpl in H. apply andb_true_iff in H. destruct H as [Hc _].
  destruct c as [[] [] [] [] [] [] [] []]; try reflexivity; discriminate Hc.
Qed.

(** [int] reads back what [str] prints for an integer. *)
Lemma py_int_str_int (z : Z) : py_int (PyStr.str_int z) = Some z.
Proof.
  destruct z as [|p|p].
  - reflexivity.
  - unfold PyStr.str_int. simpl.
    rewrite py_int_of_digits by apply IntText.digits_of_uint_nilzero.
    rewrite unsigned_int_of_uint by apply DecimalPos.Unsigned.to_uint_nonnil.
    f_equal. unfold Z.of_uint. now rewrite DecimalPos.Unsigned.of_to.
  - rewrite IntText.str_int_negative. unfold py_int.
    rewrite strip_no_space.
    + rewrite unsigned_int_of_uint by apply DecimalPos.Unsigned.to_uint_nonnil.
      simpl. f_equal. unfold Z.of_uint.
      now rewrite DecimalPos.Unsigned.of_to.
    + simpl. apply (every_char_weaken PyStr.isdigit);
        [|apply IntText.digits_of_uint_nilzero].
      intros c Hc. now rewrite digit_is_no_space.
Qed.

(** ** [select_file_interactive] *)

Lemma list_csv_files_In (names : list string) (f : string) :
  In f (list_csv_files names)
  <-> In f names /\ ends_with ".csv" f = true /\ is_hidden f = false.
Proof.
  unfold list_csv_files, glob_csv. rewrite filter_In, andb_true_iff, negb_true_iff.
  tauto.
Qed.

(** What [select_file_interactive] returns: the file at the typed number,
    counted from one in the list of [list_csv_files], when the line is an
    integer from one to the number of files; nothing otherwise, as when
    there is no file.  The index of line 162 is always in the list. *)
Theorem select_file_interactive_spec (names : list string) (typed : string) :
  let csv_files := list_csv_files names in
  (forall f, select_file_interactive names typed = Some f ->
     In f names /\ ends_with ".csv" f = true /\ is_hidden f = false)
  /\ (forall choice, py_int typed = Some choice ->
        (1 <= choice <= Z.of_nat (length csv_files))%Z ->
        exists f, nth_error csv_files (Z.to_nat (choice - 1)) = Some f
                  /\ select_file_interactive names typed = Some f)
  /\ (forall choice, py_int typed = Some choice ->
        (choice < 1 \/ Z.of_nat (length csv_files) < choice)%Z ->
        select_file_interactive names typed = None)
  /\ (py_int typed = None -> select_file_interactive names typed = None)
  /\ (csv_files = [] -> select_file_interactive names typed = None).
Proof.
  intros csv_files. unfold select_file_interactive. fold csv_files.
  split; [|split; [|split; [|split]]].
  - intros f H. destruct (length csv_files =? 0); [discriminate|].
    destruct (py_int typed) as [choice|]; [|discriminate].
    destruct ((1 <=? choice)%Z && (choice <=? Z.of_nat (length csv_files))%Z);
      [|discriminate].
    apply nth_error_In in H. now apply list_csv_files_In.
  - intros choice Hp Hr. rewrite Hp.
    destruct (length csv_files =? 0) eqn:E0; [apply Nat.eqb_eq in E0; lia|].
    assert (Hg : ((1 <=? choice)%Z && (choice <=? Z.of_nat (length csv_files))%Z) = true)
      by (apply andb_true_iff; split; apply Z.leb_le; lia).
    rewrite Hg.
    destruct (nth_error csv_files (Z.to_nat (choice - 1))) as [f|] eqn:En.
    + now exists f.
    + apply nth_error_None in En. lia.
  - intros choice Hp Hr. rewrite Hp.
    destruct (length csv_files =? 0); [reflexivity|].
    assert (Hg : ((1 <=? choice)%Z && (choice <=? Z.of_nat (length csv_files))%Z) = false).
    { apply andb_false_iff. destruct Hr; [left; apply Z.leb_gt | right; apply Z.leb_gt]; lia. }
    now rewrite Hg.
  - intros Hp. rewrite Hp. now destruct (length csv_files =? 0).
  - intros He. now rewrite He.
Qed.

(** Typing the number of a file, as the menu counts them from one, selects
    that file. *)
Theorem select_by_number (names : list string) (k : nat) (f : string) :
  nth_error (list_csv_files names) k = Some f ->
  select_file_interactive names (PyStr.str_int (Z.of_nat k + 1)) = Some f.
Proof.
  intros Hk. unfold select_file_interactive.
  assert (Hlt : k < length (list_csv_files names))
    by (apply nth_error_Some; congruence).
  destruct (length (list_csv_files names) =? 0) eqn:E0;
    [apply Nat.eqb_eq in E0; lia|].
  rewrite py_int_str_int.
  assert (Hg : ((1 <=? Z.of_nat k + 1)%Z
                && (Z.of_nat k + 1 <=? Z.of_nat (length (list_csv_files names)))%Z) = true)
    by (apply andb_true_iff; split; apply Z.leb_le; lia).
  rewrite Hg. replace (Z.to_nat (Z.of_nat k + 1 - 1)) with k by lia. exact Hk.
Qed.

(** ** [process_csv_file] and [main] *)


Lemma read_write_other (path path' text : string) (fs : files) :
  path' <> path -> read_file path' (write_file path text fs) = read_file path' fs.
Proof.
  intros Hne. induction fs as [|[p old] fs IH]; simpl.
  - destruct (String.eqb path' path) eqn:E; [|reflexivity].
    apply String.eqb_eq in E. contradiction.
  - destruct (String.eqb path p) eqn:E; simpl.
    + apply String.eqb_eq in E. subst p.
      destruct (String.eqb path' path) eqn:E'; [|reflexivity].
      apply String.eqb_eq in E'. contradiction.
    + now rewrite IH.
Qed.

Lemma listdir_plain (fs : files) (name : string) :
  In name (listdir fs) -> has_slash name = false.
Proof.
  unfold listdir. intros H. apply filter_In in H.
  now apply negb_true_iff.
Qed.

Section ToolFacts.

Variable to_datetime_scalar : string -> bool.
Variable to_datetime_error : list cell -> option string.
Variable to_datetime_value : list cell -> cell -> option string.
Variable read_csv : string -> option DataFrame.
Variable to_csv : DataFrame -> string.

Local Abbreviation process' :=
  (process_csv_file to_datetime_scalar to_datetime_error to_datetime_value
     read_csv to_csv).
Local Abbreviation main' :=
  (main to_datetime_scalar to_datetime_error to_datetime_value read_csv to_csv).
Local Abbreviation cleaned' :=
  (fun df ex => fst (fst (clean_dataframe to_datetime_scalar to_datetime_error
                            to_datetime_value df ex))).

Lemma process_csv_file_cases (file_path : string) (ex : list string) (fs : files) :
  (fst (process' file_path ex fs) = None /\ snd (process' file_path ex fs) = fs
   /\ (read_file file_path fs = None
       \/ exists text, read_file file_path fs = Some text /\ read_csv text = None))
  \/ (exists text df,
        read_file file_path fs = Some text /\ read_csv text = Some df
        /\ fst (process' file_path ex fs)
           = Some (cleaned' df ex, output_filename (basename file_path))
        /\ snd (process' file_path ex fs)
           = write_file (output_filename (basename file_path))
               (to_csv (cleaned' df ex)) fs).
Proof.
  unfold process_csv_file, save_cleaned_data.
  destruct (read_file file_path fs) as [text|] eqn:Er; [|left; tauto].
  destruct (read_csv text) as [df|] eqn:Ec.
  - right. exists text, df. simpl. tauto.
  - left. simpl. repeat split. right. now exists text.
Qed.


(** A run of the tool writes at most one file, the output of the file that
    was chosen: when nothing is chosen nothing is written, and otherwise
    the chosen file and every file but its output hold what they held. *)
Theorem main_effect (typed : string) (fs : files) :
  (select_file_interactive (listdir fs) typed = None -> main' typed fs = fs)
  /\ (forall file_path,
        select_file_interactive (listdir fs) typed = Some file_path ->
        In file_path (listdir fs)
        /\ read_file file_path (main' typed fs) = read_file file_path fs
        /\ forall path, path <> output_filename file_path ->
             read_file path (main' typed fs) = read_file path fs).
Proof.
  unfold main. split.
  - intros H. now rewrite H.
  - intros file_path H. rewrite H.
    assert (Hin : In file_path (listdir fs)).
    { unfold select_file_interactive in H.
      destruct (length (list_csv_files (listdir fs)) =? 0); [discriminate|].
      destruct (py_int typed) as [choice|]; [|discriminate].
      destruct ((1 <=? choice)%Z
                && (choice <=? Z.of_nat (length (list_csv_files (listdir fs))))%Z);
        [|discriminate].
      apply nth_error_In in H. now apply list_csv_files_In in H. }
    split; [exact Hin|].
    assert (Hb : basename file_path = file_path)
      by (apply basename_plain; eapply listdir_plain; eassumption).
    destruct (process_csv_file_cases file_path [] fs)
      as [[_ [H2 _]]|[text [df [_ [_ [_ H2]]]]]]; rewrite H2.
    + tauto.
    + rewrite Hb. split.
      * apply read_write_other. intros E.
        symmetry in E. now apply output_filename_is_new in E.
      * intros path Hp. now apply read_write_other.
Qed.

End ToolFacts.

(* ================================================================== *)
(** * The further properties at concrete inputs *)

Example py_int_examples :
  py_int " 2 " = Some 2%Z /\ py_int "1_000" = Some 1000%Z
  /\ py_int "+7" = Some 7%Z /\ py_int "-12" = Some (-12)%Z
  /\ py_int "007" = Some 7%Z /\ py_int "" = None /\ py_int "2.0" = None
  /\ py_int "1__0" = None /\ py_int "_1" = None /\ py_int "1 2" = None.
Proof. vm_compute. repeat split; reflexivity. Qed.

Definition folder : list string :=
  ["notes.txt"; "a.csv"; ".hidden.csv"; "data.2024.csv"; "a_cleaned.csv"].

Example select_examples :
  list_csv_files folder = ["a.csv"; "data.2024.csv"; "a_cleaned.csv"]
  /\ select_file_interactive folder "2" = Some "data.2024.csv"
  /\ select_file_interactive folder " 1 " = Some "a.csv"
  /\ select_file_interactive folder "0" = None
  /\ select_file_interactive folder "4" = None
  /\ select_file_interactive folder "a.csv" = None
  /\ select_file_interactive ["notes.txt"] "1" = None.
Proof. vm_compute. repeat split; reflexivity. Qed.

Example output_filename_examples :
  output_filename "data.2024.csv" = "data.2024_cleaned.csv"
  /\ output_filename "README" = "README_cleaned.csv"
  /\ output_filename "table.txt" = "table_cleaned.csv"
  /\ output_filename (basename "in/2024/a.csv") = "a_cleaned.csv".
Proof. vm_compute. repeat split; reflexivity. Qed.

(** Twenty texts, then a date or one more text. *)
Definition twenty_then (last : cell) : DataFrame :=
  mkFrame (map Z.of_nat (seq 0 21))
    [("x", mkSeries object (map (fun _ => CStr "n/a 1") (seq 0 20) ++ [last]))].

Definition quantities : DataFrame :=
  mkFrame [0; 1; 2]%Z [("Qty", mkSeries int64 [CInt 5; CInt 0; CNaN])].

Definition blanks : DataFrame :=
  mkFrame [0; 1]%Z [("note", mkSeries object [CStr "   "; CStr "x"])].

Lemma detect_date_columns_order_witness :
  NoDup (columns orders)
  /\ detect_date_columns toy_scalar orders
     = filter name_is_date (columns orders)
       ++ filter (fun c => negb (name_is_date c) && content_is_date toy_scalar orders c)
            (columns orders).
Proof.
  split; [exact NoDup_orders|].
  exact (detect_date_columns_order toy_scalar orders NoDup_orders).
Defined.

Lemma detect_date_columns_sampling_witness :
  columns (twenty_then (CStr "2023-01-05")) = columns (twenty_then (CStr "z"))
  /\ (forall col, In col (columns (twenty_then (CStr "2023-01-05"))) ->
        firstn 20 (filter notna (s_values (getitem (twenty_then (CStr "2023-01-05")) col)))
        = firstn 20 (filter notna (s_values (getitem (twenty_then (CStr "z")) col))))
  /\ detect_date_columns_traced toy_scalar (twenty_then (CStr "2023-01-05"))
     = detect_date_columns_traced toy_scalar (twenty_then (CStr "z")).
Proof.
  assert (H1 : columns (twenty_then (CStr "2023-01-05"))
               = columns (twenty_then (CStr "z"))) by reflexivity.
  assert (H2 : forall col, In col (columns (twenty_then (CStr "2023-01-05"))) ->
        firstn 20 (filter notna (s_values (getitem (twenty_then (CStr "2023-01-05")) col)))
        = firstn 20 (filter notna (s_values (getitem (twenty_then (CStr "z")) col)))).
  { intros col [<-|[]]. reflexivity. }
  split; [exact H1|]. split; [exact H2|].
  exact (detect_date_columns_sampling toy_scalar _ _ H1 H2).
Defined.

Lemma counts_are_not_dates_witness :
  name_is_date "Qty" = false
  /\ (forall v, In v (s_values (getitem quantities "Qty")) ->
        isna v = true \/ exists z, v = CInt z /\ (0 <= z)%Z)
  /\ (~ In "Qty" (detect_date_columns toy_scalar quantities)
      /\ forall s, ~ In ("Qty", s) (snd (detect_date_columns_traced toy_scalar quantities))).
Proof.
  assert (H1 : name_is_date "Qty" = false) by reflexivity.
  assert (H2 : forall v, In v (s_values (getitem quantities "Qty")) ->
        isna v = true \/ exists z, v = CInt z /\ (0 <= z)%Z).
  { intros v [<-|[<-|[<-|[]]]].
    - right. exists 5%Z. split; [reflexivity | lia].
    - right. exists 0%Z. split; [reflexivity | lia].
    - now left. }
  split; [exact H1|]. split; [exact H2|].
  exact (counts_are_not_dates toy_scalar quantities "Qty" H1 H2).
Defined.

Lemma NoDup_one (name : string) : NoDup [name].
Proof. repeat constructor. simpl. tauto. Defined.


Lemma blank_text_stays_witness :
  NoDup (columns blanks) /\ In "note" (select_dtypes_object blanks)
  /\ ~ In "note" []
  /\ nth_error (s_values (getitem blanks "note")) 0 = Some (CStr "   ")
  /\ IntText.every_char PyStr.isspace "   " = true
  /\ nth_error (s_values (getitem (normalize_text blanks [] []) "note")) 0
     = Some (CStr EmptyString).
Proof.
  assert (H2 : In "note" (select_dtypes_object blanks)) by (simpl; tauto).
  assert (H3 : ~ In "note" (@nil string)) by (simpl; tauto).
  assert (H4 : nth_error (s_values (getitem blanks "note")) 0 = Some (CStr "   "))
    by reflexivity.
  assert (H5 : IntText.every_char PyStr.isspace "   " = true) by reflexivity.
  split; [exact (NoDup_one "note")|]. split; [exact H2|]. split; [exact H3|].
  split; [exact H4|]. split; [exact H5|].
  exact (proj1 (blank_text_stays blanks [] [] "note" 0 "   "
                  (NoDup_one "note") H2 H3 H4 H5)).
Defined.


Lemma output_filename_of_extension_witness :
  has_dot "txt" = false
  /\ (output_filename ("data.2024" ++ "." ++ "txt")%string
      = ("data.2024" ++ "_cleaned.csv")%string
      /\ output_filename ("data.2024" ++ ".csv")%string
         = ("data.2024" ++ "_cleaned.csv")%string).
Proof.
  assert (H : has_dot "txt" = false) by reflexivity.
  split; [exact H|].
  exact (output_filename_of_extension "data.2024" "txt" H).
Defined.

Lemma output_is_listed_again_witness :
  In "a.csv" (list_csv_files folder)
  /\ (output_filename "a.csv" <> "a.csv"
      /\ list_csv_files (output_filename "a.csv" :: folder)
         = output_filename "a.csv" :: list_csv_files folder).
Proof.
  assert (H : In "a.csv" (list_csv_files folder)) by (simpl; tauto).
  split; [exact H|].
  exact (output_is_listed_again "a.csv" folder H).
Defined.

Lemma select_by_number_witness :
  nth_error (list_csv_files folder) 1 = Some "data.2024.csv"
  /\ select_file_interactive folder (PyStr.str_int (Z.of_nat 1 + 1))
     = Some "data.2024.csv".
Proof.
  assert (H : nth_error (list_csv_files folder) 1 = Some "data.2024.csv")
    by reflexivity.
  split; [exact H|].
  exact (select_by_number folder 1 "data.2024.csv" H).
Defined.
